(** * Deal financial model engine: IRR solver, cash-flow estimation,
    pro-forma consolidation and scenario aggregation

  A shallow embedding of the numerical core of the repository's scripts

    - [scripts/calculate_irr_sensitivity.py]   ([calculate_irr], the
      scenario loop and the expected-IRR aggregation),
    - [scripts/create_irr_sensitivity_table.py] (the same [calculate_irr]),
    - [scripts/calculate_cash_flow_metrics.py]  ([estimate_operating_cash_flow],
      [calculate_free_cash_flow]),
    - [scripts/calculate_has_gets.py]           ([calculate_ebitda],
      [calculate_has_gets_metrics]).

  Number model.  Python [float]s are embedded as exact rationals [Q]:
  every arithmetic operation is the exact one, so rounding, overflow and
  underflow of binary64 are outside the model.  Comparisons are the
  rational order; float equality is [Qeq] ([==]).  Decimal literals of
  the source ([0.03], [1e-6], ...) denote the decimal fraction itself.
  What the exact model cannot see: in binary64 a power [(1 + rate) ** i]
  with a large [i] can overflow (Python raises [OverflowError]) or
  underflow to [0.0] (the division then raises [ZeroDivisionError]); inside
  [calculate_irr] both are swallowed by the bare [except] and give [None].
  Module [Binary64] runs the solver on the kernel's binary64 floats for
  the concrete test vector.

  Beyond the functions named above the embedding covers the price search
  [find_transaction_value_for_irr] of the table script, the break-even
  loop of the sensitivity script and the per-company loop of [main] in
  [calculate_cash_flow_metrics.py].  String formatting and parsing
  ([format_currency], [parse_value], the CSV and LaTeX writers) are not
  embedded.

  Dictionaries loaded from JSON are [gmap string _]; a subscript on a
  missing key raises [KeyError].  File reading and printing are left out:
  the embedded functions take the loaded dictionaries as arguments and
  return what the Python functions return. *)

From Stdlib Require Import QArith Qabs Qminmax Qpower Lqa Lia List ZArith Floats.
From stdpp Require Import base option list gmap strings.
Import ListNotations.

Local Open Scope Q_scope.

(** ** Python runtime fragment *)

Module Py.

(** The exceptions the embedded code can raise. *)
Inductive exn : Type :=
| KeyError (key : string)
| ZeroDivisionError.

(** Outcome of evaluating an expression: a value or a raised exception. *)
Inductive result (A : Type) : Type :=
| Ok (a : A)
| Raise (e : exn).
Arguments Ok {A} a.
Arguments Raise {A} e.

Definition bind {A B : Type} (m : result A) (k : A -> result B) : result B :=
  match m with
  | Ok a => k a
  | Raise e => Raise e
  end.

(** [d[key]] on a dictionary. *)
Definition getitem {V : Type} (d : gmap string V) (key : string) : result V :=
  match d !! key with
  | Some v => Ok v
  | None => Raise (KeyError key)
  end.

(** [d.get(key, dflt)]. *)
Definition get {V : Type} (d : gmap string V) (key : string) (dflt : V) : V :=
  match d !! key with
  | Some v => v
  | None => dflt
  end.

(** [a / b] on floats: a zero divisor raises. *)
Definition div (a b : Q) : result Q :=
  if Qeq_bool b 0 then Raise ZeroDivisionError else Ok (a / b).

(** [base ** n] for a non-negative integer exponent. *)
Definition pow (base : Q) (n : nat) : Q := base ^ Z.of_nat n.

(** Two-argument [max(a, b)]: [b] replaces [a] only when [b > a]. *)
Definition max (a b : Q) : Q := if Qlt_le_dec a b then b else a.

(** Truth value of an optional float: [None] and [0.0] are false. *)
Definition truthy (v : option Q) : bool :=
  match v with
  | None => false
  | Some x => negb (Qeq_bool x 0)
  end.

End Py.

Declare Scope py_scope.
Delimit Scope py_scope with py.
Notation "x <- e ;; k" := (Py.bind e (fun x => k))
  (at level 20, e at level 99, k at level 200, format "x  <-  e  ;;  '/' k")
  : py_scope.

(** ** The bisection IRR solver ([calculate_irr]) *)

Module IrrSolver.
Import Py.

(** Search bracket and tolerance of [calculate_irr]. *)
Definition low0 : Q := -0.99.
Definition high0 : Q := 10.0.
Definition tolerance : Q := 1e-6.
Definition max_iterations : nat := 100.

(** [sum(cf / (1 + rate) ** i for i, cf in enumerate(cash_flows))],
    accumulated left to right from [0]; [i] is the index of the head of
    the remaining list. *)
Fixpoint npv_from (rate : Q) (i : nat) (cash_flows : list Q) (acc : Q)
  : result Q :=
  match cash_flows with
  | [] => Ok acc
  | cf :: rest =>
      (term <- div cf (pow (1 + rate) i) ;;
       npv_from rate (S i) rest (acc + term))%py
  end.

Definition npv (cash_flows : list Q) (rate : Q) : result Q :=
  npv_from rate 0 cash_flows 0.

(** A run of the solver: the rates at which [npv] was called, in order,
    and the outcome of the body of the [try] block. *)
Record run (A : Type) : Type := Run { evaluated : list Q; outcome : result A }.
Arguments Run {A} evaluated outcome.
Arguments evaluated {A} r.
Arguments outcome {A} r.

Definition ret {A : Type} (a : A) : run A := Run [] (Ok a).

Definition call_npv (cash_flows : list Q) (rate : Q) : run Q :=
  Run [rate] (npv cash_flows rate).

Definition rbind {A B : Type} (m : run A) (k : A -> run B) : run B :=
  match outcome m with
  | Ok a => Run (evaluated m ++ evaluated (k a)) (outcome (k a))
  | Raise e => Run (evaluated m) (Raise e)
  end.

(** The [for _ in range(100)] loop with the remaining iteration count,
    followed by the fall-through [return ((low + high) / 2) * 100]. *)
Fixpoint bisect (cash_flows : list Q) (iterations : nat) (low high : Q)
  : run (option Q) :=
  match iterations with
  | O => ret (Some (((low + high) / 2) * 100))
  | S remaining =>
      let mid := (low + high) / 2 in
      rbind (call_npv cash_flows mid) (fun npv_mid =>
        if Qlt_le_dec (Qabs npv_mid) tolerance then ret (Some (mid * 100))
        else if Qlt_le_dec 0 npv_mid
             then bisect cash_flows remaining mid high
             else bisect cash_flows remaining low mid)
  end.

(** Body of the [try] block. *)
Definition calculate_irr_body (cash_flows : list Q) : run (option Q) :=
  rbind (call_npv cash_flows high0) (fun npv_high =>
    if Qlt_le_dec 0 npv_high then ret None
    else bisect cash_flows max_iterations low0 high0).

(** [calculate_irr]: the bare [except] turns any exception into [None]. *)
Definition calculate_irr (cash_flows : list Q) : option Q :=
  match outcome (calculate_irr_body cash_flows) with
  | Ok r => r
  | Raise _ => None
  end.

End IrrSolver.

(** ** Cash-flow estimation ([calculate_cash_flow_metrics.py]) *)

Module CashFlowMetrics.

(** [estimate_operating_cash_flow(net_income, revenue, operating_income,
    has_ocf=None)]. *)
Definition estimate_operating_cash_flow
    (net_income revenue operating_income : Q) (has_ocf : option Q) : Q :=
  match has_ocf with
  | Some supplied => supplied
  | None =>
      let estimated_da := revenue * 0.03 in
      let ocf :=
        if Qlt_le_dec 0 net_income then
          let ocf := net_income + estimated_da in
          ocf * 0.90
        else
          if Qlt_le_dec (- revenue * 0.10) operating_income then
            operating_income + estimated_da
          else
            Py.max (operating_income + estimated_da) (revenue * 0.02)
      in
      Py.max ocf (revenue * 0.02)
  end.

(** [calculate_free_cash_flow(operating_cash_flow, revenue, has_fcf=None)]. *)
Definition calculate_free_cash_flow
    (operating_cash_flow revenue : Q) (has_fcf : option Q) : Q :=
  match has_fcf with
  | Some supplied => supplied
  | None =>
      let estimated_capex := revenue * 0.09 in
      operating_cash_flow - estimated_capex
  end.

End CashFlowMetrics.

(** ** Pro-forma consolidation ([calculate_has_gets.py]) *)

Module HasGets.
Import Py.

Definition TAX_RATE : Q := 0.21.
Definition INTEREST_RATE : Q := 0.04.
Definition DA_PCT_NVDA : Q := 0.02.
Definition DA_PCT_LSCC : Q := 0.03.
Definition PREMIUM_PCT : Q := 0.30.

(** [calculate_ebitda(operating_income, revenue, da_pct)]. *)
Definition calculate_ebitda (operating_income revenue da_pct : Q) : Q :=
  let da := revenue * da_pct in
  operating_income + da.

(** The dictionary returned by [calculate_has_gets_metrics]. *)
Record seller_gets : Type := SellerGets {
  seller_share_price : Q;
  seller_pe_ratio : option Q;
  total_consideration : Q
}.

Record buyer_gets : Type := BuyerGets {
  buyer_share_price : Q;
  buyer_pe_ratio : option Q;
  debt_ebitda : option Q;
  ebitda_interest : option Q;
  debt_capitalization : option Q;
  net_debt_capitalization : option Q;
  debt : Q;
  equity : Q;
  market_cap : Q
}.

Record transaction : Type := Transaction {
  offer_price : Q;
  premium_pct : Q;
  transaction_value : Q;
  goodwill : Q
}.

Record has_gets : Type := HasGetsResult {
  seller : seller_gets;
  buyer : buyer_gets;
  deal : transaction
}.

(** [num / den if den > 0 else None]. *)
Definition ratio_if_positive (num den : Q) : option Q :=
  if Qlt_le_dec 0 den then Some (num / den) else None.

(** [calculate_has_gets_metrics()], as a function of the two JSON
    documents it loads ([master_financials.json], [market_data.json]). *)
Definition calculate_has_gets_metrics
    (financials market_data : gmap string (gmap string Q)) : result has_gets :=
  (nvda <- getitem financials "NVDA" ;;
   nvda_market <- getitem market_data "NVDA" ;;
   lscc <- getitem financials "LSCC" ;;
   lscc_market <- getitem market_data "LSCC" ;;
   let annual_synergies : Q := 123200000 in
   (* transaction parameters *)
   lscc_current_price <- getitem lscc_market "current_price" ;;
   let offer_price := lscc_current_price * (1 + PREMIUM_PCT) in
   lscc_shares <- getitem lscc "shares_outstanding" ;;
   let transaction_value := offer_price * lscc_shares in
   (* buyer gets *)
   nvda_share_price <- getitem nvda_market "current_price" ;;
   nvda_market_cap <- getitem nvda_market "market_cap" ;;
   nvda_operating_income <- getitem nvda "operating_income" ;;
   nvda_revenue <- getitem nvda "revenue" ;;
   let nvda_ebitda := calculate_ebitda nvda_operating_income nvda_revenue DA_PCT_NVDA in
   lscc_operating_income <- getitem lscc "operating_income" ;;
   lscc_revenue <- getitem lscc "revenue" ;;
   let lscc_ebitda := calculate_ebitda lscc_operating_income lscc_revenue DA_PCT_LSCC in
   nvda_net_income <- getitem nvda "net_income" ;;
   lscc_net_income <- getitem lscc "net_income" ;;
   let pro_forma_net_income :=
     nvda_net_income + lscc_net_income + annual_synergies * (1 - TAX_RATE) in
   let pro_forma_ebitda := nvda_ebitda + lscc_ebitda + annual_synergies in
   nvda_total_debt <- getitem nvda "total_debt" ;;
   lscc_total_debt <- getitem lscc "total_debt" ;;
   let pro_forma_debt := nvda_total_debt + lscc_total_debt in
   nvda_cash <- getitem nvda_market "cash" ;;
   lscc_cash <- getitem lscc_market "cash" ;;
   let pro_forma_cash := nvda_cash + lscc_cash - transaction_value in
   lscc_book_value <- getitem lscc "stockholders_equity" ;;
   let goodwill := transaction_value - lscc_book_value in
   nvda_equity <- getitem nvda "stockholders_equity" ;;
   let pro_forma_equity := nvda_equity - transaction_value + goodwill in
   let nvda_interest := nvda_total_debt * INTEREST_RATE in
   let lscc_interest := lscc_total_debt * INTEREST_RATE in
   let pro_forma_interest := nvda_interest + lscc_interest in
   (* ratios *)
   let pro_forma_pe := ratio_if_positive nvda_market_cap pro_forma_net_income in
   let pro_forma_debt_ebitda := ratio_if_positive pro_forma_debt pro_forma_ebitda in
   let pro_forma_ebitda_interest :=
     ratio_if_positive pro_forma_ebitda pro_forma_interest in
   let total_capitalization_book := pro_forma_debt + pro_forma_equity in
   let pro_forma_debt_cap_book :=
     if Qlt_le_dec 0 total_capitalization_book
     then Some (pro_forma_debt / total_capitalization_book * 100) else None in
   (* computed and never used by the source *)
   let total_capitalization_market := pro_forma_debt + nvda_market_cap in
   let pro_forma_debt_cap_market :=
     if Qlt_le_dec 0 total_capitalization_market
     then Some (pro_forma_debt / total_capitalization_market * 100) else None in
   let pro_forma_net_debt := pro_forma_debt - pro_forma_cash in
   let pro_forma_net_debt_cap :=
     if Qlt_le_dec 0 total_capitalization_book
     then Some (pro_forma_net_debt / total_capitalization_book * 100) else None in
   Ok {| seller := {| seller_share_price := offer_price;
                      seller_pe_ratio := None;
                      total_consideration := transaction_value |};
         buyer := {| buyer_share_price := nvda_share_price;
                     buyer_pe_ratio := pro_forma_pe;
                     debt_ebitda := pro_forma_debt_ebitda;
                     ebitda_interest := pro_forma_ebitda_interest;
                     debt_capitalization := pro_forma_debt_cap_book;
                     net_debt_capitalization := pro_forma_net_debt_cap;
                     debt := pro_forma_debt;
                     equity := pro_forma_equity;
                     market_cap := nvda_market_cap |};
         deal := {| offer_price := offer_price;
                    premium_pct := PREMIUM_PCT * 100;
                    transaction_value := transaction_value;
                    goodwill := goodwill |} |})%py.

(** The keys [calculate_has_gets_metrics] subscripts, per dictionary. *)
Definition has_keys (d : gmap string Q) (keys : list string) : bool :=
  forallb (fun k => bool_decide (is_Some (d !! k))) keys.

Definition statement_keys : list string :=
  ["operating_income"; "revenue"; "net_income"; "total_debt";
   "stockholders_equity"]%string.

(** An (acquirer, target) input pair is valid when every fact the
    consolidation reads is present. *)
Definition valid_inputs (financials market_data : gmap string (gmap string Q))
  : bool :=
  match financials !! "NVDA", market_data !! "NVDA",
        financials !! "LSCC", market_data !! "LSCC" with
  | Some nvda, Some nvda_market, Some lscc, Some lscc_market =>
      has_keys nvda statement_keys
      && has_keys nvda_market ["current_price"; "market_cap"; "cash"]%string
      && has_keys lscc ("shares_outstanding"%string :: statement_keys)
      && has_keys lscc_market ["current_price"; "cash"]%string
  | _, _, _, _ => false
  end.

End HasGets.

(** ** Scenario sweep ([calculate_irr_sensitivity.py]) *)

Module IrrSensitivity.
Import Py.

Definition TAX_RATE : Q := 0.21.
Definition PREMIUM_PCT : Q := 0.30.
Definition TERMINAL_MULTIPLE : Q := 20.0.
Definition HOLDING_PERIOD : nat := 7.

(** Body of [for year in range(1, HOLDING_PERIOD + 1)]: the cash flow
    appended for [year]. *)
Definition cf_year (lscc_free_cash_flow after_tax_synergies : Q) (year : nat)
  : Q :=
  let base_growth := pow 1.03 (year - 1) in
  let synergy_growth := pow 1.05 (year - 1) in
  (lscc_free_cash_flow * base_growth) + (after_tax_synergies * synergy_growth).

(** [cash_flows[-1] += terminal_value].  The list is never empty where
    the source does this (it starts with the initial outlay). *)
Fixpoint add_to_last (cash_flows : list Q) (terminal_value : Q) : list Q :=
  match cash_flows with
  | [] => []
  | [final] => [final + terminal_value]
  | cf :: rest => cf :: add_to_last rest terminal_value
  end.

(** The stream one scenario builds (source lines 130-151). *)
Definition scenario_cash_flows
    (transaction_value lscc_free_cash_flow lscc_ebitda annual_synergies : Q)
  : list Q :=
  let after_tax_synergies := annual_synergies * (1 - TAX_RATE) in
  let cash_flows := [- transaction_value] in
  let cash_flows :=
    fold_left
      (fun cash_flows year =>
         cash_flows ++ [cf_year lscc_free_cash_flow after_tax_synergies year])
      (seq 1 HOLDING_PERIOD) cash_flows in
  let final_year_growth := pow 1.05 (HOLDING_PERIOD - 1) in
  let terminal_ebitda := lscc_ebitda + (annual_synergies * final_year_growth) in
  let terminal_value := terminal_ebitda * TERMINAL_MULTIPLE in
  add_to_last cash_flows terminal_value.

(** [sum(cf / (1.10) ** i for i, cf in enumerate(cash_flows))]. *)
Fixpoint npv_at_10pct_from (i : nat) (cash_flows : list Q) (acc : Q)
  : result Q :=
  match cash_flows with
  | [] => Ok acc
  | cf :: rest =>
      (term <- div cf (pow 1.10 i) ;;
       npv_at_10pct_from (S i) rest (acc + term))%py
  end.

(** One entry of [results]. *)
Record scenario_result : Type := ScenarioResult {
  scenario : string;
  synergy_multiplier : Q;
  annual_synergies : Q;
  irr : option Q;
  npv : Q
}.

(** The [synergy_scenarios] dictionary, in insertion order. *)
Definition synergy_scenarios : list (string * Q) :=
  [("Pessimistic (50%)"%string, 0.50);
   ("Base Case (75%)"%string, 0.75);
   ("Base (100%)"%string, 1.00);
   ("Optimistic (125%)"%string, 1.25);
   ("Bull Case (150%)"%string, 1.50);
   ("Very Bull (200%)"%string, 2.00)].

Definition base_synergies : Q := 123200000.

(** One pass of [for scenario_name, multiplier in synergy_scenarios.items()]. *)
Definition run_scenario
    (transaction_value lscc_free_cash_flow lscc_ebitda : Q)
    (entry : string * Q) : result scenario_result :=
  let '(scenario_name, multiplier) := entry in
  let annual_synergies := base_synergies * multiplier in
  let cash_flows :=
    scenario_cash_flows transaction_value lscc_free_cash_flow lscc_ebitda
                        annual_synergies in
  let irr := IrrSolver.calculate_irr cash_flows in
  (npv <- npv_at_10pct_from 0 cash_flows 0 ;;
   Ok {| scenario := scenario_name;
         synergy_multiplier := multiplier;
         annual_synergies := annual_synergies;
         irr := irr;
         npv := npv |})%py.

Fixpoint run_scenarios
    (transaction_value lscc_free_cash_flow lscc_ebitda : Q)
    (entries : list (string * Q)) : result (list scenario_result) :=
  match entries with
  | [] => Ok []
  | entry :: rest =>
      (r <- run_scenario transaction_value lscc_free_cash_flow lscc_ebitda entry ;;
       rs <- run_scenarios transaction_value lscc_free_cash_flow lscc_ebitda rest ;;
       Ok (r :: rs))%py
  end.

(** [calculate_irr_sensitivity()], as a function of the two JSON documents;
    the value is the returned [results] list.  The break-even search and
    the expected IRR are only printed by the source; the aggregation is
    [expected_irr] below. *)
Definition calculate_irr_sensitivity
    (financials market_data : gmap string (gmap string Q))
  : result (list scenario_result) :=
  (lscc <- getitem financials "LSCC" ;;
   lscc_market <- getitem market_data "LSCC" ;;
   lscc_current_price <- getitem lscc_market "current_price" ;;
   let offer_price := lscc_current_price * (1 + PREMIUM_PCT) in
   lscc_shares <- getitem lscc "shares_outstanding" ;;
   let transaction_value := offer_price * lscc_shares in
   let lscc_operating_cf := get lscc "operating_cash_flow" 69000000 in
   let lscc_free_cash_flow : Q := 23000000 in
   lscc_revenue <- getitem lscc "revenue" ;;
   lscc_operating_income <- getitem lscc "operating_income" ;;
   let lscc_ebitda := lscc_operating_income + (lscc_revenue * 0.03) in
   run_scenarios transaction_value lscc_free_cash_flow lscc_ebitda
                 synergy_scenarios)%py.

(** The [probabilities] dictionary. *)
Definition probabilities : gmap string Q :=
  list_to_map
    [("Pessimistic (50%)"%string, 0.10);
     ("Base Case (75%)"%string, 0.20);
     ("Base (100%)"%string, 0.35);
     ("Optimistic (125%)"%string, 0.20);
     ("Bull Case (150%)"%string, 0.10);
     ("Very Bull (200%)"%string, 0.05)].

(** Body of the aggregation loop (source lines 217-220):
    [prob = probabilities.get(result['scenario'], 0)] and, when
    [result['irr']] is truthy, [expected_irr += prob * (result['irr'] / 100)]. *)
Definition expected_irr_step (expected_irr : Q) (result : scenario_result) : Q :=
  let prob := get probabilities (scenario result) 0 in
  match irr result with
  | Some irr_pct =>
      if truthy (Some irr_pct) then expected_irr + prob * (irr_pct / 100)
      else expected_irr
  | None => expected_irr
  end.

(** [expected_irr] after the loop over [results], starting from [0]. *)
Definition expected_irr (results : list scenario_result) : Q :=
  fold_left expected_irr_step results 0.

(** The figure printed as "Expected IRR", in percent: [expected_irr*100]. *)
Definition expected_irr_pct (results : list scenario_result) : Q :=
  expected_irr results * 100.

(** Spec-side reading of the aggregation: the sum, over exactly the
    scenarios whose IRR is defined, of [probability * irr]. *)
Definition prob_of (result : scenario_result) : Q :=
  get probabilities (scenario result) 0.

Definition is_defined (result : scenario_result) : bool :=
  match irr result with Some _ => true | None => false end.

Definition irr_or_zero (result : scenario_result) : Q :=
  match irr result with Some v => v | None => 0 end.

Definition sumQ (xs : list Q) : Q := fold_right Qplus 0 xs.

Definition weighted_sum_over_defined (results : list scenario_result) : Q :=
  sumQ (map (fun r => prob_of r * irr_or_zero r)
            (List.filter is_defined results)).

(** [result] with its [irr] field replaced. *)
Definition with_irr (result : scenario_result) (v : option Q) : scenario_result :=
  {| scenario := scenario result;
     synergy_multiplier := synergy_multiplier result;
     annual_synergies := annual_synergies result;
     irr := v;
     npv := npv result |}.

End IrrSensitivity.

(** ** The solver on binary64

    The same [calculate_irr], on the kernel's IEEE 754 binary64 floats, to
    run it on a concrete stream.  Decimal literals are rounded to the
    nearest binary64 value, as Python's parser does.  The power operator
    is a parameter: Python computes [float ** int] with C's [pow], which
    is specified here only by what a proof assumes of it (its
    [OverflowError] is not modelled). *)

Module Binary64.
Local Open Scope float_scope.
#[local] Set Warnings "-inexact-float".

Section Solver.
Variable power : float -> nat -> float.

Fixpoint npv_from (rate : float) (i : nat) (cash_flows : list float)
         (acc : float) : option float :=
  match cash_flows with
  | [] => Some acc
  | cf :: rest =>
      let discount := power (1 + rate) i in
      if discount =? 0 then None (* ZeroDivisionError *)
      else npv_from rate (S i) rest (acc + cf / discount)
  end.

Definition npv (cash_flows : list float) (rate : float) : option float :=
  npv_from rate 0 cash_flows 0.

Fixpoint bisect (cash_flows : list float) (iterations : nat)
         (low high : float) : option (option float) :=
  match iterations with
  | O => Some (Some (((low + high) / 2) * 100))
  | S remaining =>
      let mid := (low + high) / 2 in
      match npv cash_flows mid with
      | None => None
      | Some npv_mid =>
          if abs npv_mid <? 1e-6 then Some (Some (mid * 100))
          else if 0 <? npv_mid
               then bisect cash_flows remaining mid high
               else bisect cash_flows remaining low mid
      end
  end.

(** [None] both for the ceiling check and for a swallowed exception. *)
Definition calculate_irr (cash_flows : list float) : option float :=
  match npv cash_flows 10.0 with
  | None => None
  | Some npv_high =>
      if 0 <? npv_high then None
      else match bisect cash_flows 100 (-0.99) 10.0 with
           | Some r => r
           | None => None
           end
  end.

End Solver.

(** A power function for running the solver: exact at exponents 0 and 1. *)
Fixpoint power_by_mul (base : float) (i : nat) : float :=
  match i with
  | O => 1
  | S O => base
  | S k => base * power_by_mul base k
  end.

End Binary64.


(** ** Transaction value for a target IRR ([create_irr_sensitivity_table.py]) *)

Module IrrTable.
Import Py.

Definition TAX_RATE : Q := 0.21.
Definition PREMIUM_PCT : Q := 0.30.
Definition TERMINAL_MULTIPLE : Q := 20.0.
Definition HOLDING_PERIOD : nat := 7.

(** The stream built inside the search loop (source lines 64-75) for the
    price [test_value]. *)
Definition cash_flows_for
    (test_value annual_synergies lscc_fcf lscc_ebitda : Q) : list Q :=
  let cash_flows := [- test_value] in
  let cash_flows :=
    fold_left
      (fun cash_flows year =>
         let base_growth := pow 1.03 (year - 1) in
         let synergy_growth := pow 1.05 (year - 1) in
         let after_tax_synergies := annual_synergies * (1 - TAX_RATE) in
         let cf_year :=
           (lscc_fcf * base_growth) + (after_tax_synergies * synergy_growth) in
         cash_flows ++ [cf_year])
      (seq 1 HOLDING_PERIOD) cash_flows in
  let final_year_growth := pow 1.05 (HOLDING_PERIOD - 1) in
  let terminal_ebitda := lscc_ebitda + (annual_synergies * final_year_growth) in
  let terminal_value := terminal_ebitda * TERMINAL_MULTIPLE in
  IrrSensitivity.add_to_last cash_flows terminal_value.

(** Initial bracket of the search: $1B to $50B. *)
Definition low_value : Q := 1e9.
Definition high_value : Q := 50e9.

(** The [for _ in range(100)] loop of [find_transaction_value_for_irr] with
    the remaining iteration count, followed by [return (low + high) / 2]. *)
Fixpoint search_transaction_value
    (target_irr annual_synergies lscc_fcf lscc_ebitda : Q)
    (iterations : nat) (low high : Q) : Q :=
  match iterations with
  | O => (low + high) / 2
  | S remaining =>
      let test_value := (low + high) / 2 in
      let cash_flows :=
        cash_flows_for test_value annual_synergies lscc_fcf lscc_ebitda in
      match IrrSolver.calculate_irr cash_flows with
      | None =>
          search_transaction_value target_irr annual_synergies lscc_fcf
                                   lscc_ebitda remaining low test_value
      | Some irr =>
          if Qlt_le_dec (Qabs (irr / 100 - target_irr)) 0.001 then test_value
          else if Qlt_le_dec (irr / 100) target_irr
               then search_transaction_value target_irr annual_synergies lscc_fcf
                                             lscc_ebitda remaining low test_value
               else search_transaction_value target_irr annual_synergies lscc_fcf
                                             lscc_ebitda remaining test_value high
      end
  end.

(** [find_transaction_value_for_irr(target_irr, annual_synergies, lscc_fcf,
    lscc_ebitda)]. *)
Definition find_transaction_value_for_irr
    (target_irr annual_synergies lscc_fcf lscc_ebitda : Q) : Q :=
  search_transaction_value target_irr annual_synergies lscc_fcf lscc_ebitda
                           100 low_value high_value.

End IrrTable.

(** ** Break-even search of [calculate_irr_sensitivity] (source lines 177-197) *)

Module BreakEven.
Import Py IrrSensitivity.

Definition target_irr : Q := 0.10.

(** The multipliers tried, in order. *)
Definition test_multipliers : list Q := [0.3; 0.4; 0.5; 0.6; 0.7; 0.8; 0.9; 1.0].

(** The loop over [test_mult]: the value is the pair
    [(test_mult, test_synergies)] the source prints before [break], or
    [None] when the loop ends without printing.  The stream is built as in
    the scenario loop, with [test_synergies] for [annual_synergies]. *)
Fixpoint break_even_search
    (transaction_value lscc_free_cash_flow lscc_ebitda : Q)
    (multipliers : list Q) : option (Q * Q) :=
  match multipliers with
  | [] => None
  | test_mult :: rest =>
      let test_synergies := base_synergies * test_mult in
      let cash_flows :=
        scenario_cash_flows transaction_value lscc_free_cash_flow lscc_ebitda
                            test_synergies in
      let irr := IrrSolver.calculate_irr cash_flows in
      match irr with
      | Some irr_pct =>
          if truthy (Some irr_pct) then
            if Qlt_le_dec (irr_pct / 100) target_irr
            then break_even_search transaction_value lscc_free_cash_flow
                                   lscc_ebitda rest
            else Some (test_mult, test_synergies)
          else break_even_search transaction_value lscc_free_cash_flow
                                 lscc_ebitda rest
      | None =>
          break_even_search transaction_value lscc_free_cash_flow lscc_ebitda rest
      end
  end.

Definition break_even (transaction_value lscc_free_cash_flow lscc_ebitda : Q)
  : option (Q * Q) :=
  break_even_search transaction_value lscc_free_cash_flow lscc_ebitda
                    test_multipliers.

End BreakEven.

(** ** Per-company metrics ([main] of [calculate_cash_flow_metrics.py]) *)

Module CashFlowMain.
Import Py CashFlowMetrics.

(** One entry of [master_financials.json]: the numeric facts and the
    [company_info] sub-dictionary, when present. *)
Record company_data : Type := CompanyData {
  facts : gmap string Q;
  company_info : option (gmap string string)
}.

(** One entry of [results]. *)
Record metrics : Type := Metrics {
  ticker : string;
  company : string;
  revenue_m : Q;
  net_income_m : Q;
  operating_cash_flow_m : Q;
  free_cash_flow_m : Q;
  market_cap_m : Q;
  p_cf : option Q;
  p_fcf : option Q;
  ocf_margin : option Q;
  fcf_margin : option Q;
  ocf_estimated : bool;
  fcf_estimated : bool
}.

(** [data['company_info']]. *)
Definition get_company_info (data : company_data) : result (gmap string string) :=
  match company_info data with
  | Some info => Ok info
  | None => Raise (KeyError "company_info")
  end.

(** Body of [for ticker in companies] once [data] and [market_cap] are
    looked up (source lines 98-140). *)
Definition company_metrics (ticker : string) (data : company_data) (market_cap : Q)
  : result metrics :=
  (revenue <- getitem (facts data) "revenue" ;;
   net_income <- getitem (facts data) "net_income" ;;
   operating_income <- getitem (facts data) "operating_income" ;;
   let '(ocf, estimated) :=
     match facts data !! "operating_cash_flow" with
     | None =>
         (estimate_operating_cash_flow net_income revenue operating_income None,
          true)
     | Some ocf => (ocf, false)
     end in
   let '(fcf, fcf_estimated) :=
     match facts data !! "free_cash_flow" with
     | None => (calculate_free_cash_flow ocf revenue None, true)
     | Some fcf => (fcf, false)
     end in
   let p_cf := if Qlt_le_dec 0 ocf then Some (market_cap / ocf) else None in
   let p_fcf := if Qlt_le_dec 0 fcf then Some (market_cap / fcf) else None in
   let ocf_margin :=
     if Qlt_le_dec 0 revenue then Some ((ocf / revenue) * 100) else None in
   let fcf_margin :=
     if Qlt_le_dec 0 revenue then Some ((fcf / revenue) * 100) else None in
   info <- get_company_info data ;;
   name <- getitem info "name" ;;
   Ok {| ticker := ticker;
         company := name;
         revenue_m := revenue / 1e6;
         net_income_m := net_income / 1e6;
         operating_cash_flow_m := ocf / 1e6;
         free_cash_flow_m := fcf / 1e6;
         market_cap_m := market_cap / 1e6;
         p_cf := p_cf;
         p_fcf := p_fcf;
         ocf_margin := ocf_margin;
         fcf_margin := fcf_margin;
         ocf_estimated := estimated;
         fcf_estimated := fcf_estimated |})%py.

Definition companies : list string :=
  ["NVDA"; "INTC"; "AMD"; "MCHP"; "LSCC"]%string.

(** The loop that fills [results] (source lines 94-140). *)
Fixpoint collect_metrics
    (financials : gmap string company_data) (market_caps : gmap string Q)
    (tickers : list string) : result (list metrics) :=
  match tickers with
  | [] => Ok []
  | ticker :: rest =>
      (data <- getitem financials ticker ;;
       market_cap <- getitem market_caps ticker ;;
       r <- company_metrics ticker data market_cap ;;
       rs <- collect_metrics financials market_caps rest ;;
       Ok (r :: rs))%py
  end.

End CashFlowMain.


(** * Proof-side definitions *)

Module IrrSolverFacts.
Import Py IrrSolver.

(** The value [npv] accumulates when no division raises. *)
Fixpoint npv_value_from (rate : Q) (i : nat) (cash_flows : list Q) (acc : Q)
  : Q :=
  match cash_flows with
  | [] => acc
  | cf :: rest => npv_value_from rate (S i) rest (acc + cf / pow (1 + rate) i)
  end.

Definition npv_value (cash_flows : list Q) (rate : Q) : Q :=
  npv_value_from rate 0 cash_flows 0.

(** 2 ^ n as a rational. *)
Fixpoint pow2 (n : nat) : Q :=
  match n with
  | O => 1
  | S k => 2 * pow2 k
  end.

End IrrSolverFacts.


Module HasGetsFacts.

(** The target's (Lattice's) statement fact under [key], when present. *)
Definition target_fact (financials : gmap string (gmap string Q)) (key : string)
  : option Q :=
  match financials !! "LSCC" with
  | Some lscc => lscc !! key
  | None => None
  end.

(** The target's quoted price, when present. *)
Definition target_price (market_data : gmap string (gmap string Q)) : option Q :=
  match market_data !! "LSCC" with
  | Some lscc_market => lscc_market !! "current_price"
  | None => None
  end.

End HasGetsFacts.

Module Samples.

(** A small (acquirer, target) input pair with every fact present. *)
Definition nvda_facts : gmap string Q :=
  list_to_map
    [("operating_income"%string, 900); ("revenue"%string, 2000);
     ("net_income"%string, 700); ("total_debt"%string, 100);
     ("stockholders_equity"%string, 1500)].

Definition nvda_quote : gmap string Q :=
  list_to_map
    [("current_price"%string, 180); ("market_cap"%string, 40000);
     ("cash"%string, 600)].

Definition lscc_facts (shares : Q) : gmap string Q :=
  list_to_map
    [("shares_outstanding"%string, shares);
     ("operating_income"%string, 30); ("revenue"%string, 500);
     ("net_income"%string, 20); ("total_debt"%string, 10);
     ("stockholders_equity"%string, 700)].

Definition lscc_quote : gmap string Q :=
  list_to_map [("current_price"%string, 10); ("cash"%string, 120)].

Definition financials (shares : Q) : gmap string (gmap string Q) :=
  list_to_map [("NVDA"%string, nvda_facts); ("LSCC"%string, lscc_facts shares)].

Definition market_data : gmap string (gmap string Q) :=
  list_to_map [("NVDA"%string, nvda_quote); ("LSCC"%string, lscc_quote)].

End Samples.

Module SampleScenarios.
Import IrrSensitivity.

(** Three sweep results: a solved IRR, a non-convergent one, and one more
    solved IRR. *)
Definition base_case : scenario_result :=
  {| scenario := "Base (100%)"; synergy_multiplier := 1.00;
     annual_synergies := 123200000; irr := Some 12; npv := 1000 |}.

Definition bull_case : scenario_result :=
  {| scenario := "Bull Case (150%)"; synergy_multiplier := 1.50;
     annual_synergies := 184800000; irr := None; npv := 2000 |}.

Definition pessimistic_case : scenario_result :=
  {| scenario := "Pessimistic (50%)"; synergy_multiplier := 0.50;
     annual_synergies := 61600000; irr := Some (-4); npv := -500 |}.

End SampleScenarios.

Module SweepFacts.
Import Py IrrSensitivity.

(** The value [npv_at_10pct_from] accumulates when no division raises. *)
Fixpoint npv_at_10pct_value_from (i : nat) (cash_flows : list Q) (acc : Q) : Q :=
  match cash_flows with
  | [] => acc
  | cf :: rest => npv_at_10pct_value_from (S i) rest (acc + cf / pow 1.10 i)
  end.

(** The result record of one scenario, given that NPV at 10% is computed. *)
Definition scenario_of
    (transaction_value lscc_free_cash_flow lscc_ebitda : Q) (entry : string * Q)
  : scenario_result :=
  let cash_flows :=
    scenario_cash_flows transaction_value lscc_free_cash_flow lscc_ebitda
                        (base_synergies * snd entry) in
  {| scenario := fst entry;
     synergy_multiplier := snd entry;
     annual_synergies := base_synergies * snd entry;
     irr := IrrSolver.calculate_irr cash_flows;
     npv := npv_at_10pct_value_from 0 cash_flows 0 |}.

(** The facts [calculate_irr_sensitivity] subscripts are all present. *)
Definition sweep_inputs_present
    (financials market_data : gmap string (gmap string Q)) : bool :=
  match financials !! "LSCC", market_data !! "LSCC" with
  | Some lscc, Some lscc_market =>
      HasGets.has_keys lscc_market ["current_price"]%string
      && HasGets.has_keys lscc
           ["shares_outstanding"; "revenue"; "operating_income"]%string
  | _, _ => false
  end.

End SweepFacts.

Module SampleCompanies.
Import CashFlowMain.



End SampleCompanies.

Module ConsolidationFacts.


End ConsolidationFacts.

Module SampleSweep.
Import IrrSensitivity.

(** Six results named as the sweep names them, all with a solved IRR. *)
Definition result_named (name : string) (multiplier irr_pct : Q) : scenario_result :=
  {| scenario := name; synergy_multiplier := multiplier;
     annual_synergies := base_synergies * multiplier;
     irr := Some irr_pct; npv := 0 |}.

Definition results : list scenario_result :=
  [result_named "Pessimistic (50%)" 0.50 (-6);
   result_named "Base Case (75%)" 0.75 (-2);
   result_named "Base (100%)" 1.00 1;
   result_named "Optimistic (125%)" 1.25 4;
   result_named "Bull Case (150%)" 1.50 6;
   result_named "Very Bull (200%)" 2.00 10].

End SampleSweep.

(** * Verification *)

(** ** Facts about the Python fragment *)

Section PyFacts.
Import Py.

Lemma div_nonzero (a b : Q) : ~ b == 0 -> div a b = Ok (a / b).
Proof.
  intros Hb. unfold div.
  destruct (Qeq_bool b 0) eqn:E; [|reflexivity].
  apply Qeq_bool_iff in E. contradiction.
Qed.

Lemma pow_pos (base : Q) (n : nat) : 0 < base -> 0 < pow base n.
Proof. intros Hb. unfold pow. apply Qpower_0_lt. exact Hb. Qed.

Lemma pow_0 (base : Q) : pow base 0 = 1.
Proof. reflexivity. Qed.

Lemma pow_1 (base : Q) : pow base 1 = base.
Proof. reflexivity. Qed.

Lemma max_ge_r (a b : Q) : b <= max a b.
Proof. unfold max. destruct (Qlt_le_dec a b); lra. Qed.

Lemma getitem_Some {V : Type} (d : gmap string V) (k : string) (v : V) :
  d !! k = Some v -> getitem d k = Ok v.
Proof. intros H. unfold getitem. rewrite H. reflexivity. Qed.

End PyFacts.

(** ** The IRR solver *)

Section SolverFacts.
Import Py IrrSolver IrrSolverFacts.

Lemma npv_from_defined (rate : Q) (cash_flows : list Q) :
  0 < 1 + rate ->
  forall i acc,
    npv_from rate i cash_flows acc = Ok (npv_value_from rate i cash_flows acc).
Proof.
  intros Hr. induction cash_flows as [|cf rest IH]; intros i acc; simpl.
  - reflexivity.
  - rewrite div_nonzero.
    + simpl. apply IH.
    + pose proof (pow_pos (1 + rate) i Hr). lra.
Qed.

Lemma npv_defined (cash_flows : list Q) (rate : Q) :
  0 < 1 + rate -> npv cash_flows rate = Ok (npv_value cash_flows rate).
Proof. intros Hr. apply npv_from_defined. exact Hr. Qed.

Lemma rbind_call_npv {B : Type} (cash_flows : list Q) (rate v : Q)
      (k : Q -> run B) :
  npv cash_flows rate = Ok v ->
  rbind (call_npv cash_flows rate) k
  = Run (rate :: evaluated (k v)) (outcome (k v)).
Proof. intros H. unfold rbind, call_npv. simpl. rewrite H. reflexivity. Qed.

Lemma midpoint_between (low high : Q) :
  low <= high -> low <= (low + high) / 2 <= high.
Proof.
  intros H. unfold Qdiv.
  assert (E : (low + high) * / 2 == low * (1#2) + high * (1#2)) by field.
  rewrite E. lra.
Qed.

(** The loop stays inside its bracket: every rate it evaluates and the
    rate it returns lie between [low] and [high], and it always returns. *)
Lemma bisect_in_bracket (cash_flows : list Q) (n : nat) :
  forall low high,
    0 < 1 + low -> low <= high ->
    exists r,
      outcome (bisect cash_flows n low high) = Ok (Some r)
      /\ low * 100 <= r <= high * 100
      /\ Forall (fun x => low <= x <= high)
                (evaluated (bisect cash_flows n low high)).
Proof.
  induction n as [|n IH]; intros low high Hlow Hle.
  - exists ((low + high) / 2 * 100). simpl.
    pose proof (midpoint_between low high Hle). repeat split; try lra.
    constructor.
  - pose proof (midpoint_between low high Hle) as Hmid.
    set (mid := (low + high) / 2) in *.
    assert (Hm : 0 < 1 + mid) by lra.
    cbn [bisect]. fold mid.
    rewrite (rbind_call_npv _ _ _ _ (npv_defined cash_flows mid Hm)).
    cbn [outcome evaluated].
    destruct (Qlt_le_dec (Qabs (npv_value cash_flows mid)) tolerance).
    + exists (mid * 100). simpl. repeat split; try lra.
      constructor; [lra | constructor].
    + destruct (Qlt_le_dec 0 (npv_value cash_flows mid)).
      * destruct (IH mid high Hm (proj2 Hmid)) as (r & Hr & Hb & Hall).
        exists r. repeat split; try lra; try exact Hr.
        constructor; [lra|].
        eapply Forall_impl; [exact Hall|]. simpl. intros x Hx. lra.
      * destruct (IH low mid Hlow (proj1 Hmid)) as (r & Hr & Hb & Hall).
        exists r. repeat split; try lra; try exact Hr.
        constructor; [lra|].
        eapply Forall_impl; [exact Hall|]. simpl. intros x Hx. lra.
Qed.

End SolverFacts.

Section SolverClaims.
Import Py IrrSolver IrrSolverFacts.

Lemma Qabs_cases (x : Q) :
  (0 <= x /\ Qabs x == x) \/ (x <= 0 /\ Qabs x == - x).
Proof.
  destruct (Qlt_le_dec x 0) as [H|H].
  - right. split; [lra|]. apply Qabs_neg. lra.
  - left. split; [exact H|]. apply Qabs_pos. exact H.
Qed.

Lemma tolerance_value : tolerance == 0.000001.
Proof. reflexivity. Qed.

Lemma one_e_minus_4 : 1e-4 == 0.0001.
Proof. reflexivity. Qed.

(** NPV of the stream [-100, 110] in closed form. *)
Lemma npv_value_100_110 (rate : Q) :
  npv_value [-100; 110] rate == 110 / (1 + rate) - 100.
Proof.
  unfold npv_value. simpl. rewrite pow_0, pow_1.
  unfold Qdiv. change (/ 1) with 1. ring.
Qed.

Lemma npv_100_110_positive (rate : Q) :
  0 < 1 + rate -> 0 < npv_value [-100; 110] rate -> rate < 0.1.
Proof.
  intros Hd Hv. rewrite npv_value_100_110 in Hv.
  assert (E : 110 / (1 + rate) * (1 + rate) == 110) by (field; lra).
  nra.
Qed.

Lemma npv_100_110_nonpositive (rate : Q) :
  0 < 1 + rate -> npv_value [-100; 110] rate <= 0 -> 0.1 <= rate.
Proof.
  intros Hd Hv. rewrite npv_value_100_110 in Hv.
  assert (E : 110 / (1 + rate) * (1 + rate) == 110) by (field; lra).
  nra.
Qed.

Lemma npv_100_110_within_tolerance (rate : Q) :
  0 < 1 + rate ->
  Qabs (npv_value [-100; 110] rate) < tolerance ->
  Qabs (rate * 100 - 10) < 1e-4.
Proof.
  intros Hd Hv. rewrite npv_value_100_110 in Hv.
  rewrite tolerance_value in Hv. rewrite one_e_minus_4.
  apply Qabs_Qlt_condition in Hv. destruct Hv as [Hl Hu].
  assert (E : 110 / (1 + rate) * (1 + rate) == 110) by (field; lra).
  apply Qabs_Qlt_condition. split; nra.
Qed.

(** Bisection on [-100, 110] keeps the root 0.1 bracketed, so whichever
    way the loop ends its result is within 1e-4 of 10. *)
Lemma bisect_100_110 (n : nat) :
  forall low high,
    0 < 1 + low -> low <= 0.1 -> 0.1 <= high ->
    (high - low) * 500000 < pow2 n ->
    exists r,
      outcome (bisect [-100; 110] n low high) = Ok (Some r)
      /\ Qabs (r - 10) < 1e-4.
Proof.
  induction n as [|n IH]; intros low high Hlow Hl Hh Hw.
  - exists ((low + high) / 2 * 100). split; [reflexivity|].
    simpl in Hw. rewrite one_e_minus_4. apply Qabs_Qlt_condition.
    assert (E : (low + high) / 2 == low * (1#2) + high * (1#2)) by field.
    rewrite E. split; lra.
  - assert (Hle : low <= high) by lra.
    pose proof (midpoint_between low high Hle) as Hmid.
    assert (E : (low + high) / 2 == low * (1#2) + high * (1#2)) by field.
    set (mid := (low + high) / 2) in *.
    assert (Hm : 0 < 1 + mid) by lra.
    cbn [bisect]. fold mid.
    rewrite (rbind_call_npv _ _ _ _ (npv_defined _ mid Hm)).
    cbn [outcome]. cbn [pow2] in Hw.
    destruct (Qlt_le_dec (Qabs (npv_value [-100; 110] mid)) tolerance) as [Ht|Ht].
    + exists (mid * 100). split; [reflexivity|].
      apply npv_100_110_within_tolerance; assumption.
    + destruct (Qlt_le_dec 0 (npv_value [-100; 110] mid)) as [Hp|Hp].
      * apply npv_100_110_positive in Hp; [|exact Hm].
        apply IH; lra.
      * apply npv_100_110_nonpositive in Hp; [|exact Hm].
        apply IH; lra.
Qed.

(** When the ceiling check passes, [calculate_irr] is the bisection loop
    on the initial bracket. *)
Lemma calculate_irr_bisects (cash_flows : list Q) :
  npv_value cash_flows high0 <= 0 ->
  outcome (calculate_irr_body cash_flows)
  = outcome (bisect cash_flows max_iterations low0 high0).
Proof.
  intros Hnp.
  assert (H10 : 0 < 1 + high0) by (unfold high0; lra).
  unfold calculate_irr_body.
  rewrite (rbind_call_npv _ _ _ _ (npv_defined cash_flows high0 H10)).
  cbn [outcome].
  destruct (Qlt_le_dec 0 (npv_value cash_flows high0)) as [Hp|Hp];
    [lra | reflexivity].
Qed.

(** C1: for the two-entry cash-flow stream [-100, 110] the bisection IRR
    solver returns a value within absolute tolerance 1e-4 of 10.0 (the IRR
    as a percentage). *)
Theorem calculate_irr_100_110 :
  exists r, calculate_irr [-100; 110] = Some r /\ Qabs (r - 10.0) < 1e-4.
Proof.
  assert (Hw : (high0 - low0) * 500000 < pow2 max_iterations)
    by (vm_compute; reflexivity).
  assert (Hlow : 0 < 1 + low0) by (unfold low0; lra).
  assert (Hl : low0 <= 0.1) by (unfold low0; lra).
  assert (Hh : 0.1 <= high0) by (unfold high0; lra).
  assert (Hceil : npv_value [-100; 110] high0 <= 0).
  { rewrite npv_value_100_110. unfold high0.
    assert (E : 110 / (1 + 10.0) == 10) by reflexivity.
    rewrite E. lra. }
  destruct (bisect_100_110 max_iterations low0 high0 Hlow Hl Hh Hw)
    as (r & Hr & Hclose).
  exists r. split.
  - unfold calculate_irr.
    rewrite (calculate_irr_bisects _ Hceil), Hr. reflexivity.
  - assert (E : r - 10.0 == r - 10) by lra. rewrite E. exact Hclose.
Qed.

(** C2: for every cash-flow stream whose NPV at the search ceiling
    high = 10.0 is strictly positive, the solver returns None: the [try]
    body returns it normally (no exception is raised), and the only NPV
    evaluation made is the one at the ceiling, so no bisection iteration
    has run. *)
Theorem positive_npv_at_ceiling_returns_None (cash_flows : list Q) (v : Q) :
  npv cash_flows high0 = Ok v ->
  0 < v ->
  calculate_irr cash_flows = None
  /\ calculate_irr_body cash_flows = Run [high0] (Ok None).
Proof.
  intros Hnpv Hpos.
  assert (Hbody : calculate_irr_body cash_flows = Run [high0] (Ok None)).
  { unfold calculate_irr_body. rewrite (rbind_call_npv _ _ _ _ Hnpv).
    destruct (Qlt_le_dec 0 v) as [_|Hle]; [reflexivity|lra]. }
  split; [|exact Hbody].
  unfold calculate_irr. rewrite Hbody. reflexivity.
Qed.

Lemma positive_npv_at_ceiling_returns_None_witness :
  calculate_irr [-100; 5000] = None
  /\ calculate_irr_body [-100; 5000] = Run [high0] (Ok None).
Proof.
  apply (positive_npv_at_ceiling_returns_None
           [-100; 5000] (npv_value [-100; 5000] high0)).
  - vm_compute. reflexivity.
  - vm_compute. reflexivity.
Defined.

(** The empty stream and an all-zero stream have NPV 0 everywhere: the
    first midpoint, 4.505, is within tolerance and 450.5 is returned. *)
Example calculate_irr_empty_stream :
  exists r, calculate_irr [] = Some r /\ r == 450.5.
Proof. eexists. split; [vm_compute; reflexivity | reflexivity]. Qed.

Example calculate_irr_zero_stream :
  exists r, calculate_irr [0; 0; 0] = Some r /\ r == 450.5.
Proof. eexists. split; [vm_compute; reflexivity | reflexivity]. Qed.


End SolverClaims.

(** ** Monotonicity of the solver in the cash-flow stream *)

Section SolverMonotone.
Import Py IrrSolver IrrSolverFacts.

Lemma npv_value_from_mono (rate : Q) (flows_a flows_b : list Q) :
  0 < 1 + rate ->
  Forall2 Qle flows_a flows_b ->
  forall i acc_a acc_b,
    acc_a <= acc_b ->
    npv_value_from rate i flows_a acc_a <= npv_value_from rate i flows_b acc_b.
Proof.
  intros Hr Hall. induction Hall as [|a b rest_a rest_b Hab _ IH];
    intros i acc_a acc_b Hacc; simpl.
  - exact Hacc.
  - apply IH.
    pose proof (pow_pos (1 + rate) i Hr) as Hp.
    assert (Hinv : 0 < / pow (1 + rate) i) by (apply Qinv_lt_0_compat; exact Hp).
    unfold Qdiv. nra.
Qed.

Lemma npv_value_mono (rate : Q) (flows_a flows_b : list Q) :
  0 < 1 + rate ->
  Forall2 Qle flows_a flows_b ->
  npv_value flows_a rate <= npv_value flows_b rate.
Proof.
  intros Hr Hall. apply npv_value_from_mono; [exact Hr | exact Hall | lra].
Qed.

(** Two streams, the second dominating the first: started on the same
    bracket, the loop on the second never returns a smaller rate. *)
Lemma bisect_monotone (flows_a flows_b : list Q) :
  (forall rate, 0 < 1 + rate ->
                npv_value flows_a rate <= npv_value flows_b rate) ->
  forall n low high r_a r_b,
    0 < 1 + low -> low <= high ->
    outcome (bisect flows_a n low high) = Ok (Some r_a) ->
    outcome (bisect flows_b n low high) = Ok (Some r_b) ->
    r_a <= r_b.
Proof.
  intros Hdom. induction n as [|n IH]; intros low high r_a r_b Hlow Hle Ha Hb.
  - simpl in Ha, Hb. injection Ha as <-. injection Hb as <-. lra.
  - pose proof (midpoint_between low high Hle) as Hmid.
    set (mid := (low + high) / 2) in *.
    assert (Hm : 0 < 1 + mid) by lra.
    cbn [bisect] in Ha, Hb. fold mid in Ha, Hb.
    rewrite (rbind_call_npv _ _ _ _ (npv_defined flows_a mid Hm)) in Ha.
    rewrite (rbind_call_npv _ _ _ _ (npv_defined flows_b mid Hm)) in Hb.
    cbn [outcome] in Ha, Hb.
    pose proof (Hdom mid Hm) as Hv.
    pose proof tolerance_value as Htol.
    destruct (Qabs_cases (npv_value flows_a mid)) as [[Ha0 Ea]|[Ha0 Ea]];
      destruct (Qabs_cases (npv_value flows_b mid)) as [[Hb0 Eb]|[Hb0 Eb]];
      (destruct (Qlt_le_dec (Qabs (npv_value flows_a mid)) tolerance) as [Hta|Hta];
       [ (* the first stream stops at [mid] *)
         injection Ha as <-;
         destruct (Qlt_le_dec (Qabs (npv_value flows_b mid)) tolerance) as [Htb|Htb];
         [ injection Hb as <-; lra
         | destruct (Qlt_le_dec 0 (npv_value flows_b mid)) as [Hpb|Hpb];
           [ destruct (bisect_in_bracket flows_b n mid high Hm (proj2 Hmid))
               as (ub & Hub & Hubb & _);
             rewrite Hub in Hb; injection Hb as <-; lra
           | exfalso; lra ] ]
       | destruct (Qlt_le_dec 0 (npv_value flows_a mid)) as [Hpa|Hpa];
         [ (* the first stream moves up: so does the second *)
           destruct (Qlt_le_dec (Qabs (npv_value flows_b mid)) tolerance) as [Htb|Htb];
           [ exfalso; lra
           | destruct (Qlt_le_dec 0 (npv_value flows_b mid)) as [Hpb|Hpb];
             [ apply (IH mid high); [exact Hm | lra | exact Ha | exact Hb]
             | exfalso; lra ] ]
         | (* the first stream moves down: its result is at most [mid] *)
           destruct (bisect_in_bracket flows_a n low mid Hlow (proj1 Hmid))
             as (la & Hla & Hlab & _);
           destruct (Qlt_le_dec (Qabs (npv_value flows_b mid)) tolerance) as [Htb|Htb];
           [ rewrite Hla in Ha; injection Ha as <-; injection Hb as <-; lra
           | destruct (Qlt_le_dec 0 (npv_value flows_b mid)) as [Hpb|Hpb];
             [ destruct (bisect_in_bracket flows_b n mid high Hm (proj2 Hmid))
                 as (ub & Hub & Hubb & _);
               rewrite Hla in Ha; injection Ha as <-;
               rewrite Hub in Hb; injection Hb as <-; lra
             | apply (IH low mid); [exact Hlow | lra | exact Ha | exact Hb] ] ] ] ]).
Qed.

Lemma calculate_irr_Some (cash_flows : list Q) (r : Q) :
  calculate_irr cash_flows = Some r ->
  outcome (bisect cash_flows max_iterations low0 high0) = Ok (Some r).
Proof.
  assert (H10 : 0 < 1 + high0) by (unfold high0; lra).
  assert (Hlow : 0 < 1 + low0) by (unfold low0; lra).
  assert (Hle : low0 <= high0) by (unfold low0, high0; lra).
  unfold calculate_irr, calculate_irr_body.
  rewrite (rbind_call_npv _ _ _ _ (npv_defined cash_flows high0 H10)).
  cbn [outcome].
  destruct (Qlt_le_dec 0 (npv_value cash_flows high0)) as [Hp|Hp].
  - intros E. simpl in E. discriminate E.
  - destruct (bisect_in_bracket cash_flows max_iterations low0 high0 Hlow Hle)
      as (r' & Hr' & _).
    rewrite Hr'. intros E. injection E as <-. reflexivity.
Qed.

(** A stream dominating another one never gets a smaller IRR, when both
    IRRs are defined. *)
Lemma calculate_irr_monotone (flows_a flows_b : list Q) (r_a r_b : Q) :
  Forall2 Qle flows_a flows_b ->
  calculate_irr flows_a = Some r_a ->
  calculate_irr flows_b = Some r_b ->
  r_a <= r_b.
Proof.
  intros Hall Ha Hb.
  apply calculate_irr_Some in Ha. apply calculate_irr_Some in Hb.
  eapply (bisect_monotone flows_a flows_b); [| | |exact Ha|exact Hb].
  - intros rate Hr. apply npv_value_mono; assumption.
  - unfold low0. lra.
  - unfold low0, high0. lra.
Qed.

(** The solver returns a rate whenever NPV at the ceiling is not positive. *)
Lemma calculate_irr_defined (cash_flows : list Q) :
  npv_value cash_flows high0 <= 0 ->
  exists r, calculate_irr cash_flows = Some r.
Proof.
  intros Hceil.
  assert (Hlow : 0 < 1 + low0) by (unfold low0; lra).
  assert (Hle : low0 <= high0) by (unfold low0, high0; lra).
  destruct (bisect_in_bracket cash_flows max_iterations low0 high0 Hlow Hle)
    as (r & Hr & _).
  exists r. unfold calculate_irr.
  rewrite (calculate_irr_bisects _ Hceil), Hr. reflexivity.
Qed.

End SolverMonotone.

(** ** The projected cash-flow stream *)

Section ProjectionFacts.
Import Py IrrSolver IrrSolverFacts IrrSensitivity.

(** The stream of a scenario, entry by entry. *)
Lemma scenario_cash_flows_entries (tv fcf ebitda synergies : Q) :
  scenario_cash_flows tv fcf ebitda synergies
  = let a := synergies * (1 - TAX_RATE) in
    [ - tv;
      cf_year fcf a 1; cf_year fcf a 2; cf_year fcf a 3;
      cf_year fcf a 4; cf_year fcf a 5; cf_year fcf a 6;
      cf_year fcf a 7
      + (ebitda + synergies * pow 1.05 (HOLDING_PERIOD - 1)) * TERMINAL_MULTIPLE ].
Proof. reflexivity. Qed.

Lemma scenario_cash_flows_length (tv fcf ebitda synergies : Q) :
  length (scenario_cash_flows tv fcf ebitda synergies) = S HOLDING_PERIOD.
Proof. reflexivity. Qed.






(** At the input of the witness both IRRs are defined. *)
Example synergies_monotone_witness_defined :
  (exists irr1,
      calculate_irr (scenario_cash_flows 12200000000 23000000 50000000 61600000)
      = Some irr1)
  /\ (exists irr2,
         calculate_irr
           (scenario_cash_flows 12200000000 23000000 50000000 123200000)
         = Some irr2).
Proof.
  split; apply calculate_irr_defined; vm_compute; discriminate.
Qed.

End ProjectionFacts.

(** ** Operating-cash-flow estimate *)

Section CashFlowClaims.
Import CashFlowMetrics.

(** C9: for every net income, operating income and revenue, the
    operating-cash-flow estimator (no reported figure supplied) returns at
    least 0.02 x revenue: the final floor applies to every branch, the
    profitable and the mild-loss ones included. *)
Theorem estimate_operating_cash_flow_floor (net_income revenue operating_income : Q) :
  revenue * 0.02
  <= estimate_operating_cash_flow net_income revenue operating_income None.
Proof. unfold estimate_operating_cash_flow. apply max_ge_r. Qed.

(** C4 as stated fails: a mild loss whose operating income plus D&A is
    below 2% of revenue is lifted to the floor. *)
Lemma mild_loss_estimate_is_floored :
  -1 <= 0
  /\ - 100 * 0.10 < -5
  /\ estimate_operating_cash_flow (-1) 100 (-5) None == 2
  /\ ~ estimate_operating_cash_flow (-1) 100 (-5) None == -5 + 100 * 0.03.
Proof.
  split; [lra|]. split; [lra|]. split.
  - vm_compute. reflexivity.
  - vm_compute. discriminate.
Qed.

(** C4 (amended): for net_income <= 0 and operating_income > -0.10 x
    revenue the estimate is max(operating_income + revenue x 0.03,
    0.02 x revenue): the final floor applies to the mild-loss branch too,
    and the estimate is operating_income + D&A exactly when that sum is
    at least 0.02 x revenue. *)
Theorem mild_loss_estimate (net_income revenue operating_income : Q) :
  net_income <= 0 ->
  - revenue * 0.10 < operating_income ->
  estimate_operating_cash_flow net_income revenue operating_income None
  = Py.max (operating_income + revenue * 0.03) (revenue * 0.02)
  /\ (revenue * 0.02 <= operating_income + revenue * 0.03 ->
      estimate_operating_cash_flow net_income revenue operating_income None
      = operating_income + revenue * 0.03)
  /\ (operating_income + revenue * 0.03 < revenue * 0.02 ->
      estimate_operating_cash_flow net_income revenue operating_income None
      = revenue * 0.02).
Proof.
  intros Hni Hoi. unfold estimate_operating_cash_flow.
  destruct (Qlt_le_dec 0 net_income) as [Hp|_]; [lra|].
  destruct (Qlt_le_dec (- revenue * 0.10) operating_income) as [_|Hn]; [|lra].
  split; [reflexivity|]. unfold Py.max.
  destruct (Qlt_le_dec (operating_income + revenue * 0.03) (revenue * 0.02));
    split; intros H; first [reflexivity | lra].
Qed.

Lemma mild_loss_estimate_witness :
  -1 <= 0
  /\ - 100 * 0.10 < -5
  /\ estimate_operating_cash_flow (-1) 100 (-5) None
     = Py.max (-5 + 100 * 0.03) (100 * 0.02)
  /\ (100 * 0.02 <= -5 + 100 * 0.03 ->
      estimate_operating_cash_flow (-1) 100 (-5) None = -5 + 100 * 0.03)
  /\ (-5 + 100 * 0.03 < 100 * 0.02 ->
      estimate_operating_cash_flow (-1) 100 (-5) None = 100 * 0.02).
Proof.
  assert (H1 : -1 <= 0) by lra.
  assert (H2 : - 100 * 0.10 < -5) by lra.
  split; [exact H1|]. split; [exact H2|].
  exact (mild_loss_estimate (-1) 100 (-5) H1 H2).
Defined.

End CashFlowClaims.

(** ** Pro-forma consolidation *)

Section ConsolidationClaims.
Import Py HasGets HasGetsFacts.

Ltac getitem_step :=
  match goal with
  | H : ?d !! ?k = Some ?v |- context [getitem ?d ?k] =>
      rewrite (getitem_Some d k v H); cbn [bind]
  end.

Ltac key_present :=
  match goal with
  | H : bool_decide (is_Some _) = true |- _ =>
      apply bool_decide_eq_true in H; destruct H as [? H]
  end.

(** On a valid input pair the consolidation returns; the deal figures
    are computed from the target's price, share count and book equity. *)
Lemma calculate_has_gets_metrics_valid
      (financials market_data : gmap string (gmap string Q)) :
  valid_inputs financials market_data = true ->
  exists price shares book r,
    target_price market_data = Some price
    /\ target_fact financials "shares_outstanding" = Some shares
    /\ target_fact financials "stockholders_equity" = Some book
    /\ calculate_has_gets_metrics financials market_data = Ok r
    /\ offer_price (deal r) = price * (1 + PREMIUM_PCT)
    /\ transaction_value (deal r) = offer_price (deal r) * shares
    /\ goodwill (deal r) = transaction_value (deal r) - book.
Proof.
  unfold valid_inputs, target_price, target_fact. intros Hvalid.
  destruct (financials !! "NVDA") as [nvda|] eqn:Hnvda; [|discriminate].
  destruct (market_data !! "NVDA") as [nvda_market|] eqn:Hnvda_m; [|discriminate].
  destruct (financials !! "LSCC") as [lscc|] eqn:Hlscc; [|discriminate].
  destruct (market_data !! "LSCC") as [lscc_market|] eqn:Hlscc_m; [|discriminate].
  unfold has_keys, statement_keys in Hvalid. cbn [forallb] in Hvalid.
  rewrite !andb_true_iff in Hvalid. destruct_and!.
  repeat key_present.
  unfold calculate_has_gets_metrics.
  repeat getitem_step.
  do 4 eexists. repeat split; try eassumption; reflexivity.
Qed.

(** C3: for every valid (acquirer, target) input pair the consolidation
    returns goodwill equal to transaction_value minus the target's
    stockholders_equity, with no clamping: it is negative when the
    transaction value is below the target's book equity. *)
Theorem goodwill_is_value_less_book_equity
        (financials market_data : gmap string (gmap string Q)) :
  valid_inputs financials market_data = true ->
  exists r book,
    calculate_has_gets_metrics financials market_data = Ok r
    /\ target_fact financials "stockholders_equity" = Some book
    /\ goodwill (deal r) = transaction_value (deal r) - book
    /\ (transaction_value (deal r) < book -> goodwill (deal r) < 0).
Proof.
  intros Hvalid.
  destruct (calculate_has_gets_metrics_valid _ _ Hvalid)
    as (price & shares & book & r & _ & _ & Hb & Hr & _ & _ & Hg).
  exists r, book. repeat split; try assumption.
  intros Hlt. rewrite Hg. lra.
Qed.

Lemma goodwill_is_value_less_book_equity_witness :
  valid_inputs (Samples.financials 50) Samples.market_data = true
  /\ exists r book,
      calculate_has_gets_metrics (Samples.financials 50) Samples.market_data = Ok r
      /\ target_fact (Samples.financials 50) "stockholders_equity" = Some book
      /\ goodwill (deal r) = transaction_value (deal r) - book
      /\ (transaction_value (deal r) < book -> goodwill (deal r) < 0).
Proof.
  assert (H : valid_inputs (Samples.financials 50) Samples.market_data = true)
    by (vm_compute; reflexivity).
  split; [exact H|].
  exact (goodwill_is_value_less_book_equity _ _ H).
Defined.

(** With 50 shares at an offer of 13 the deal is worth 650, below the book
    equity of 700: the goodwill returned is -50. *)
Example bargain_purchase_goodwill :
  exists r,
    calculate_has_gets_metrics (Samples.financials 50) Samples.market_data = Ok r
    /\ transaction_value (deal r) == 650
    /\ goodwill (deal r) == -50.
Proof.
  eexists. split; [vm_compute; reflexivity|]. split; reflexivity.
Qed.

(** C5 as stated fails: with a share count of 0 the consolidation does
    not raise; it returns a result whose transaction value is computed
    from that share count. *)
Lemma zero_shares_are_consolidated :
  target_fact (Samples.financials 0) "shares_outstanding" = Some 0
  /\ 0 <= 0
  /\ exists r,
      calculate_has_gets_metrics (Samples.financials 0) Samples.market_data = Ok r
      /\ transaction_value (deal r) == 0
      /\ goodwill (deal r) == -700.
Proof.
  split; [vm_compute; reflexivity|]. split; [lra|].
  eexists. split; [vm_compute; reflexivity|]. split; reflexivity.
Qed.

(** C5 (amended): a target share count <= 0 is not rejected.  On an input
    pair with every fact present the consolidation returns a result whose
    transaction_value is offer_price x shares_outstanding computed from
    that share count, hence <= 0 for a non-negative offer price. *)
Theorem nonpositive_shares_not_rejected
        (financials market_data : gmap string (gmap string Q)) (shares : Q) :
  valid_inputs financials market_data = true ->
  target_fact financials "shares_outstanding" = Some shares ->
  shares <= 0 ->
  exists r,
    calculate_has_gets_metrics financials market_data = Ok r
    /\ transaction_value (deal r) = offer_price (deal r) * shares
    /\ (0 <= offer_price (deal r) -> transaction_value (deal r) <= 0).
Proof.
  intros Hvalid Hs Hle.
  destruct (calculate_has_gets_metrics_valid _ _ Hvalid)
    as (price & shares' & book & r & _ & Hs' & _ & Hr & _ & Htv & _).
  rewrite Hs in Hs'. injection Hs' as <-.
  exists r. repeat split; try assumption.
  intros Hp. rewrite Htv. nra.
Qed.

Lemma nonpositive_shares_not_rejected_witness :
  valid_inputs (Samples.financials 0) Samples.market_data = true
  /\ target_fact (Samples.financials 0) "shares_outstanding" = Some 0
  /\ 0 <= 0
  /\ exists r,
      calculate_has_gets_metrics (Samples.financials 0) Samples.market_data = Ok r
      /\ transaction_value (deal r) = offer_price (deal r) * 0
      /\ (0 <= offer_price (deal r) -> transaction_value (deal r) <= 0).
Proof.
  assert (H1 : valid_inputs (Samples.financials 0) Samples.market_data = true)
    by (vm_compute; reflexivity).
  assert (H2 : target_fact (Samples.financials 0) "shares_outstanding" = Some 0)
    by (vm_compute; reflexivity).
  assert (H3 : 0 <= 0) by lra.
  repeat (split; [assumption|]).
  exact (nonpositive_shares_not_rejected _ _ _ H1 H2 H3).
Defined.

End ConsolidationClaims.

(** ** Expected-IRR aggregation *)

Section AggregationClaims.
Import Py IrrSensitivity.

Lemma expected_irr_step_contribution (acc : Q) (r : scenario_result) :
  expected_irr_step acc r
  == acc + (if is_defined r then prob_of r * (irr_or_zero r / 100) else 0).
Proof.
  unfold expected_irr_step, is_defined, irr_or_zero, prob_of.
  destruct (irr r) as [v|]; [|ring].
  unfold truthy. destruct (Qeq_bool v 0) eqn:E; simpl; [|reflexivity].
  apply Qeq_bool_eq in E. rewrite E. unfold Qdiv. ring.
Qed.

Lemma expected_irr_step_undefined (acc : Q) (r : scenario_result) :
  expected_irr_step acc (with_irr r None) = acc.
Proof. reflexivity. Qed.

Lemma expected_irr_step_zero (acc : Q) (r : scenario_result) (zero : Q) :
  zero == 0 -> expected_irr_step acc (with_irr r (Some zero)) = acc.
Proof.
  intros Hz. unfold expected_irr_step, truthy. simpl.
  apply Qeq_bool_iff in Hz. rewrite Hz. reflexivity.
Qed.

Lemma fold_expected_irr_step (results : list scenario_result) :
  forall acc,
    fold_left expected_irr_step results acc
    == acc + sumQ (map (fun r => prob_of r * (irr_or_zero r / 100))
                       (List.filter is_defined results)).
Proof.
  induction results as [|r rest IH]; intros acc; simpl.
  - ring.
  - rewrite IH, expected_irr_step_contribution.
    destruct (is_defined r); simpl; ring.
Qed.

Lemma sumQ_percent (results : list scenario_result) :
  sumQ (map (fun r => prob_of r * (irr_or_zero r / 100)) results) * 100
  == sumQ (map (fun r => prob_of r * irr_or_zero r) results).
Proof.
  induction results as [|r rest IH]; simpl.
  - ring.
  - rewrite <- IH. field.
Qed.

(** C6: the probability-weighted expected IRR is the sum, over exactly the
    scenarios whose IRR is defined, of probability x irr (in percent, as
    printed; the accumulated fraction is that sum over 100), and a
    scenario whose IRR is undefined adds nothing to it. *)
Theorem expected_irr_sums_defined_scenarios (results : list scenario_result) :
  expected_irr_pct results == weighted_sum_over_defined results
  /\ expected_irr results == weighted_sum_over_defined results / 100
  /\ forall before after r,
      expected_irr (before ++ with_irr r None :: after)
      = expected_irr (before ++ after).
Proof.
  assert (Hpct : expected_irr_pct results == weighted_sum_over_defined results).
  { unfold expected_irr_pct, expected_irr, weighted_sum_over_defined.
    rewrite fold_expected_irr_step, <- sumQ_percent. ring. }
  split; [exact Hpct|]. split.
  - rewrite <- Hpct. unfold expected_irr_pct. field.
  - intros before after r. unfold expected_irr.
    rewrite !fold_left_app. simpl.
    rewrite expected_irr_step_undefined. reflexivity.
Qed.

(** C8: a scenario whose solved IRR is exactly 0.0 is left out of the
    weighted sum just as one whose IRR is undefined: swapping the two
    does not change the expected IRR. *)
Theorem zero_irr_aggregates_as_undefined
        (before after : list scenario_result) (r : scenario_result) (zero : Q) :
  zero == 0 ->
  expected_irr (before ++ with_irr r (Some zero) :: after)
  = expected_irr (before ++ with_irr r None :: after).
Proof.
  intros Hz. unfold expected_irr. rewrite !fold_left_app. simpl.
  rewrite expected_irr_step_undefined, (expected_irr_step_zero _ _ _ Hz).
  reflexivity.
Qed.

Lemma zero_irr_aggregates_as_undefined_witness :
  0.0 == 0
  /\ expected_irr ([SampleScenarios.pessimistic_case]
                   ++ with_irr SampleScenarios.base_case (Some 0.0)
                   :: [SampleScenarios.bull_case])
     = expected_irr ([SampleScenarios.pessimistic_case]
                     ++ with_irr SampleScenarios.base_case None
                     :: [SampleScenarios.bull_case]).
Proof.
  assert (H : 0.0 == 0) by reflexivity.
  split; [exact H|].
  exact (zero_irr_aggregates_as_undefined
           [SampleScenarios.pessimistic_case] [SampleScenarios.bull_case]
           SampleScenarios.base_case 0.0 H).
Defined.

(** On the three sample results (IRR -4% at probability 0.10, 12% at 0.35,
    undefined at 0.10) the printed expected IRR is 3.8%. *)
Example expected_irr_of_samples :
  expected_irr_pct [SampleScenarios.pessimistic_case;
                    SampleScenarios.base_case;
                    SampleScenarios.bull_case] == 3.8.
Proof. vm_compute. reflexivity. Qed.

End AggregationClaims.

(** ** The test vector on binary64 *)

Section Binary64Facts.
Import Binary64.
Local Open Scope float_scope.
#[local] Set Warnings "-inexact-float".

Variable power : float -> nat -> float.
Hypothesis power_0 : forall base, power base 0 = 1.
Hypothesis power_1 : forall base, power base 1 = base.

Lemma npv_two_entries (outlay inflow rate : float) :
  Binary64.npv power [outlay; inflow] rate
  = Binary64.npv power_by_mul [outlay; inflow] rate.
Proof. unfold Binary64.npv. simpl. rewrite power_0, power_1. reflexivity. Qed.

Lemma bisect_two_entries (outlay inflow : float) (n : nat) :
  forall low high,
    Binary64.bisect power [outlay; inflow] n low high
    = Binary64.bisect power_by_mul [outlay; inflow] n low high.
Proof.
  induction n as [|n IH]; intros low high; [reflexivity|].
  cbn [Binary64.bisect]. rewrite npv_two_entries.
  destruct (Binary64.npv power_by_mul [outlay; inflow] ((low + high) / 2))
    as [v|]; [|reflexivity].
  rewrite !IH. reflexivity.
Qed.

(** With any power function that is exact at exponents 0 and 1, the
    binary64 solver returns 10.000001039355988 on [-100, 110], which is
    within 1e-4 of 10.0. *)
Lemma calculate_irr_100_110_binary64 :
  Binary64.calculate_irr power [-100; 110] = Some 0x1.4000022dffffdp+3
  /\ (abs (0x1.4000022dffffdp+3 - 10.0) <? 1e-4) = true.
Proof.
  split; [|vm_compute; reflexivity].
  unfold Binary64.calculate_irr. rewrite npv_two_entries, bisect_two_entries.
  vm_compute. reflexivity.
Qed.

End Binary64Facts.

Section Binary64Run.
Import Binary64.
Local Open Scope float_scope.
#[local] Set Warnings "-inexact-float".

Lemma calculate_irr_100_110_binary64_witness :
  (forall base, power_by_mul base 0 = 1)
  /\ (forall base, power_by_mul base 1 = base)
  /\ Binary64.calculate_irr power_by_mul [-100; 110] = Some 0x1.4000022dffffdp+3
  /\ (abs (0x1.4000022dffffdp+3 - 10.0) <? 1e-4) = true.
Proof.
  assert (H0 : forall base, power_by_mul base 0 = 1) by reflexivity.
  assert (H1 : forall base, power_by_mul base 1 = base) by reflexivity.
  split; [exact H0|]. split; [exact H1|].
  exact (calculate_irr_100_110_binary64 power_by_mul H0 H1).
Defined.

End Binary64Run.

(** * Further properties of the code *)

(** ** The solver: range, exits and edge streams *)

Section SolverEdgeCases.
Import Py IrrSolver IrrSolverFacts.

Lemma pow2_pos (n : nat) : 0 < pow2 n.
Proof. induction n as [|n IH]; simpl; lra. Qed.

(** How the loop ends: at a midpoint strictly inside the bracket, either
    on the tolerance test or after halving the bracket [n] times. *)
Lemma bisect_exit (cash_flows : list Q) (n : nat) :
  forall low high,
    0 < 1 + low -> low < high ->
    exists mid,
      outcome (bisect cash_flows n low high) = Ok (Some (mid * 100))
      /\ low < mid < high
      /\ (Qabs (npv_value cash_flows mid) < tolerance
          \/ exists lo hi,
               mid = (lo + hi) / 2 /\ low <= lo /\ hi <= high
               /\ (hi - lo) * pow2 n == high - low).
Proof.
  induction n as [|n IH]; intros low high Hlow Hlt.
  - exists ((low + high) / 2).
    assert (E : (low + high) / 2 == low * (1#2) + high * (1#2)) by field.
    split; [reflexivity|]. split; [rewrite E; lra|].
    right. exists low, high. simpl. repeat split; lra.
  - assert (E : (low + high) / 2 == low * (1#2) + high * (1#2)) by field.
    set (mid := (low + high) / 2) in *.
    assert (Hm : 0 < 1 + mid) by lra.
    cbn [bisect]. fold mid.
    rewrite (rbind_call_npv _ _ _ _ (npv_defined cash_flows mid Hm)).
    cbn [outcome].
    destruct (Qlt_le_dec (Qabs (npv_value cash_flows mid)) tolerance) as [Ht|Ht].
    + exists mid. split; [reflexivity|]. split; [lra|]. left. exact Ht.
    + destruct (Qlt_le_dec 0 (npv_value cash_flows mid)) as [Hp|Hp].
      * destruct (IH mid high Hm) as (m & Hout & Hin & Hexit); [lra|].
        exists m. split; [exact Hout|]. split; [lra|].
        destruct Hexit as [Hexit|(lo & hi & Hmid & Hlo & Hhi & Hw)];
          [left; exact Hexit|].
        right. exists lo, hi. cbn [pow2]. repeat split; try assumption; nra.
      * destruct (IH low mid Hlow) as (m & Hout & Hin & Hexit); [lra|].
        exists m. split; [exact Hout|]. split; [lra|].
        destruct Hexit as [Hexit|(lo & hi & Hmid & Hlo & Hhi & Hw)];
          [left; exact Hexit|].
        right. exists lo, hi. cbn [pow2]. repeat split; try assumption; nra.
Qed.

(** What [calculate_irr] does, by the sign of NPV at the ceiling. *)
Lemma calculate_irr_cases (cash_flows : list Q) :
  (0 < npv_value cash_flows high0 /\ calculate_irr cash_flows = None)
  \/ (npv_value cash_flows high0 <= 0
      /\ match outcome (bisect cash_flows max_iterations low0 high0) with
         | Ok r => calculate_irr cash_flows = r
         | Raise _ => False
         end).
Proof.
  assert (H10 : 0 < 1 + high0) by (unfold high0; lra).
  destruct (Qlt_le_dec 0 (npv_value cash_flows high0)) as [Hp|Hp].
  - left. split; [exact Hp|].
    unfold calculate_irr, calculate_irr_body.
    rewrite (rbind_call_npv _ _ _ _ (npv_defined cash_flows high0 H10)).
    cbn [outcome].
    destruct (Qlt_le_dec 0 (npv_value cash_flows high0)); [reflexivity|lra].
  - right. split; [exact Hp|].
    unfold calculate_irr. rewrite (calculate_irr_bisects _ Hp).
    destruct (bisect_in_bracket cash_flows max_iterations low0 high0)
      as (r & Hr & _); [unfold low0; lra | unfold low0, high0; lra|].
    rewrite Hr. reflexivity.
Qed.

(** A defined IRR lies between -99% and 1000%, the ends of the search
    bracket. *)
Theorem calculate_irr_range (cash_flows : list Q) (r : Q) :
  calculate_irr cash_flows = Some r -> -99 <= r <= 1000.
Proof.
  intros Hr.
  destruct (calculate_irr_cases cash_flows) as [[_ Hn]|[_ Hb]];
    [congruence|].
  destruct (bisect_exit cash_flows max_iterations low0 high0)
    as (mid & Hout & Hin & _); [unfold low0; lra | unfold low0, high0; lra|].
  rewrite Hout in Hb. rewrite Hb in Hr. injection Hr as <-.
  unfold low0, high0 in Hin. lra.
Qed.

Lemma calculate_irr_range_witness :
  calculate_irr [0; 0] = Some ((low0 + high0) / 2 * 100)
  /\ -99 <= (low0 + high0) / 2 * 100 <= 1000.
Proof.
  assert (H : calculate_irr [0; 0] = Some ((low0 + high0) / 2 * 100))
    by (vm_compute; reflexivity).
  split; [exact H|].
  exact (calculate_irr_range [0; 0] _ H).
Defined.


(** A returned IRR is 100 times a rate at which NPV is within the
    tolerance, or 100 times the midpoint of the bracket left after all
    100 halvings (of width 10.99 / 2^100). *)
Theorem calculate_irr_exit (cash_flows : list Q) (r : Q) :
  calculate_irr cash_flows = Some r ->
  exists mid,
    r = mid * 100
    /\ ((exists v, npv cash_flows mid = Ok v /\ Qabs v < tolerance)
        \/ exists lo hi,
             mid = (lo + hi) / 2 /\ -0.99 <= lo /\ hi <= 10.0
             /\ (hi - lo) * 2 ^ 100 == 10.99).
Proof.
  intros Hr.
  destruct (calculate_irr_cases cash_flows) as [[_ Hn]|[_ Hb]];
    [congruence|].
  destruct (bisect_exit cash_flows max_iterations low0 high0)
    as (mid & Hout & Hin & Hexit); [unfold low0; lra | unfold low0, high0; lra|].
  rewrite Hout in Hb. rewrite Hb in Hr. injection Hr as <-.
  exists mid. split; [reflexivity|].
  destruct Hexit as [Ht|(lo & hi & Hmid & Hlo & Hhi & Hw)].
  - left. exists (npv_value cash_flows mid). split; [|exact Ht].
    apply npv_defined. unfold low0 in Hin. lra.
  - right. exists lo, hi. unfold low0, high0 in *.
    repeat split; try assumption.
    assert (E : pow2 max_iterations == 2 ^ 100) by (vm_compute; reflexivity).
    rewrite <- E, Hw. lra.
Qed.

Lemma calculate_irr_exit_witness :
  calculate_irr [0; 0] = Some ((low0 + high0) / 2 * 100)
  /\ exists mid,
      (low0 + high0) / 2 * 100 = mid * 100
      /\ ((exists v, npv [0; 0] mid = Ok v /\ Qabs v < tolerance)
          \/ exists lo hi,
               mid = (lo + hi) / 2 /\ -0.99 <= lo /\ hi <= 10.0
               /\ (hi - lo) * 2 ^ 100 == 10.99).
Proof.
  assert (H : calculate_irr [0; 0] = Some ((low0 + high0) / 2 * 100))
    by (vm_compute; reflexivity).
  split; [exact H|].
  exact (calculate_irr_exit [0; 0] _ H).
Defined.

End SolverEdgeCases.

Section SolverEdgeStreams.
Import Py IrrSolver IrrSolverFacts.














End SolverEdgeStreams.

(** ** Price search and break-even *)

Section PriceSearch.
Import Py IrrSolver IrrSolverFacts IrrSensitivity IrrTable.

(** The table script builds the stream of the sensitivity script. *)
Lemma cash_flows_for_scenario (test_value annual_synergies lscc_fcf lscc_ebitda : Q) :
  cash_flows_for test_value annual_synergies lscc_fcf lscc_ebitda
  = scenario_cash_flows test_value lscc_fcf lscc_ebitda annual_synergies.
Proof. reflexivity. Qed.

Lemma calculate_irr_None_value (cash_flows : list Q) :
  calculate_irr cash_flows = None <-> 0 < npv_value cash_flows high0.
Proof.
  destruct (calculate_irr_cases cash_flows) as [[Hp Hn]|[Hp Hb]].
  - split; intros _; assumption.
  - destruct (bisect_in_bracket cash_flows max_iterations low0 high0)
      as (r & Hr & _); [unfold low0; lra | unfold low0, high0; lra|].
    rewrite Hr in Hb. split; [rewrite Hb; discriminate | lra].
Qed.

Lemma cash_flows_for_dominated (tv1 tv2 synergies fcf ebitda : Q) :
  tv1 <= tv2 ->
  Forall2 Qle (cash_flows_for tv2 synergies fcf ebitda)
              (cash_flows_for tv1 synergies fcf ebitda).
Proof.
  intros Htv. rewrite !cash_flows_for_scenario, !scenario_cash_flows_entries.
  cbv zeta. repeat (constructor; [lra|]). constructor.
Qed.

(** Paying more never raises the IRR: for a higher price the solved IRR
    is not larger (when both are defined), and if it is undefined at the
    higher price (NPV positive at the ceiling) it is undefined at the
    lower one too. *)
Theorem irr_decreases_with_price (tv1 tv2 synergies fcf ebitda : Q) :
  tv1 <= tv2 ->
  (forall irr1 irr2,
      calculate_irr (cash_flows_for tv1 synergies fcf ebitda) = Some irr1 ->
      calculate_irr (cash_flows_for tv2 synergies fcf ebitda) = Some irr2 ->
      irr2 <= irr1)
  /\ (calculate_irr (cash_flows_for tv2 synergies fcf ebitda) = None ->
      calculate_irr (cash_flows_for tv1 synergies fcf ebitda) = None).
Proof.
  intros Htv.
  pose proof (cash_flows_for_dominated tv1 tv2 synergies fcf ebitda Htv) as Hdom.
  split.
  - intros irr1 irr2 H1 H2.
    exact (calculate_irr_monotone _ _ _ _ Hdom H2 H1).
  - intros Hn. apply calculate_irr_None_value in Hn.
    apply calculate_irr_None_value.
    eapply Qlt_le_trans; [exact Hn|].
    apply npv_value_mono; [unfold high0; lra | exact Hdom].
Qed.

Lemma irr_decreases_with_price_witness :
  10000000000 <= 12200000000
  /\ (forall irr1 irr2,
         calculate_irr (cash_flows_for 10000000000 123200000 23000000 50000000)
         = Some irr1 ->
         calculate_irr (cash_flows_for 12200000000 123200000 23000000 50000000)
         = Some irr2 ->
         irr2 <= irr1)
  /\ (calculate_irr (cash_flows_for 12200000000 123200000 23000000 50000000)
      = None ->
      calculate_irr (cash_flows_for 10000000000 123200000 23000000 50000000)
      = None).
Proof.
  assert (H : 10000000000 <= 12200000000) by lra.
  split; [exact H|].
  exact (irr_decreases_with_price 10000000000 12200000000
                                  123200000 23000000 50000000 H).
Defined.

Lemma low_value_eq : low_value == 1000000000.
Proof. reflexivity. Qed.

Lemma high_value_eq : high_value == 50000000000.
Proof. reflexivity. Qed.

(** How the price search ends: inside its bracket, either at a price whose
    IRR is within 0.001 of the target or after halving the bracket [n]
    times. *)
Lemma search_transaction_value_exit (target synergies fcf ebitda : Q) (n : nat) :
  forall low high,
    low <= high ->
    let v := search_transaction_value target synergies fcf ebitda n low high in
    low <= v <= high
    /\ ((exists irr,
            calculate_irr (cash_flows_for v synergies fcf ebitda) = Some irr
            /\ Qabs (irr / 100 - target) < 0.001)
        \/ exists lo hi,
             v = (lo + hi) / 2 /\ low <= lo /\ hi <= high
             /\ (hi - lo) * pow2 n == high - low).
Proof.
  induction n as [|n IH]; intros low high Hle; cbv zeta.
  - pose proof (midpoint_between low high Hle) as Hmid.
    split; [exact Hmid|]. right. exists low, high. simpl.
    repeat split; lra.
  - pose proof (midpoint_between low high Hle) as Hmid.
    assert (E : (low + high) / 2 == low * (1#2) + high * (1#2)) by field.
    cbn [search_transaction_value].
    set (mid := (low + high) / 2) in *.
    assert (Hdown :
              let v := search_transaction_value target synergies fcf ebitda n low mid in
              low <= v <= high
              /\ ((exists irr,
                      calculate_irr (cash_flows_for v synergies fcf ebitda) = Some irr
                      /\ Qabs (irr / 100 - target) < 0.001)
                  \/ exists lo hi,
                       v = (lo + hi) / 2 /\ low <= lo /\ hi <= high
                       /\ (hi - lo) * pow2 (S n) == high - low)).
    { destruct (IH low mid (proj1 Hmid)) as (Hb & Hexit). cbv zeta.
      split; [lra|].
      destruct Hexit as [Hexit|(lo & hi & Hv & Hlo & Hhi & Hw)];
        [left; exact Hexit|].
      right. exists lo, hi. cbn [pow2]. repeat split; try assumption; nra. }
    assert (Hup :
              let v := search_transaction_value target synergies fcf ebitda n mid high in
              low <= v <= high
              /\ ((exists irr,
                      calculate_irr (cash_flows_for v synergies fcf ebitda) = Some irr
                      /\ Qabs (irr / 100 - target) < 0.001)
                  \/ exists lo hi,
                       v = (lo + hi) / 2 /\ low <= lo /\ hi <= high
                       /\ (hi - lo) * pow2 (S n) == high - low)).
    { destruct (IH mid high (proj2 Hmid)) as (Hb & Hexit). cbv zeta.
      split; [lra|].
      destruct Hexit as [Hexit|(lo & hi & Hv & Hlo & Hhi & Hw)];
        [left; exact Hexit|].
      right. exists lo, hi. cbn [pow2]. repeat split; try assumption; nra. }
    cbv zeta in Hdown, Hup.
    destruct (calculate_irr (cash_flows_for mid synergies fcf ebitda))
      as [irr|] eqn:Hirr; [|exact Hdown].
    destruct (Qlt_le_dec (Qabs (irr / 100 - target)) 0.001) as [Ht|Ht].
    + split; [exact Hmid|]. left. exists irr. split; assumption.
    + destruct (Qlt_le_dec (irr / 100) target); [exact Hdown | exact Hup].
Qed.

Lemma value_bracket_ordered : low_value <= high_value.
Proof. rewrite low_value_eq, high_value_eq. lra. Qed.

(** The price returned always lies between $1B and $50B. *)
Theorem find_transaction_value_in_bracket (target synergies fcf ebitda : Q) :
  1000000000 <= find_transaction_value_for_irr target synergies fcf ebitda
  <= 50000000000.
Proof.
  unfold find_transaction_value_for_irr.
  pose proof (search_transaction_value_exit target synergies fcf ebitda 100
                low_value high_value value_bracket_ordered) as Hexit.
  cbv zeta in Hexit.
  set (v := search_transaction_value _ _ _ _ _ _ _) in *. clearbody v.
  destruct Hexit as [Hb _].
  pose proof low_value_eq. pose proof high_value_eq. lra.
Qed.

(** The price returned either has an IRR within 0.001 (0.1 percentage
    point) of the target, or is the midpoint of the bracket left after all
    100 halvings (of width $49B / 2^100). *)
Theorem find_transaction_value_exit (target synergies fcf ebitda : Q) :
  let v := find_transaction_value_for_irr target synergies fcf ebitda in
  (exists irr,
      calculate_irr (cash_flows_for v synergies fcf ebitda) = Some irr
      /\ Qabs (irr / 100 - target) < 0.001)
  \/ exists lo hi,
       v = (lo + hi) / 2 /\ 1000000000 <= lo /\ hi <= 50000000000
       /\ (hi - lo) * 2 ^ 100 == 49000000000.
Proof.
  cbv zeta. unfold find_transaction_value_for_irr.
  pose proof (search_transaction_value_exit target synergies fcf ebitda 100
                low_value high_value value_bracket_ordered) as Hexit.
  cbv zeta in Hexit.
  set (v := search_transaction_value _ _ _ _ _ _ _) in *. clearbody v.
  destruct Hexit as [_ [Hexit|(lo & hi & Hv & Hlo & Hhi & Hw)]];
    [left; exact Hexit|].
  right. exists lo, hi.
  pose proof low_value_eq as El. pose proof high_value_eq as Eh.
  assert (E : pow2 100 == 2 ^ 100) by (vm_compute; reflexivity).
  repeat split; try assumption; lra.
Qed.

End PriceSearch.

Section PriceSearchUndefined.
Import Py IrrSolver IrrSolverFacts IrrSensitivity IrrTable.

Lemma search_step_None (target synergies fcf ebitda : Q) (n : nat) (low high : Q) :
  calculate_irr (cash_flows_for ((low + high) / 2) synergies fcf ebitda) = None ->
  search_transaction_value target synergies fcf ebitda (S n) low high
  = search_transaction_value target synergies fcf ebitda n low ((low + high) / 2).
Proof. intros H. cbn [search_transaction_value]. rewrite H. reflexivity. Qed.

(** While the IRR is undefined at every price up to [top], the search only
    lowers its upper bound. *)
Lemma search_below_undefined (target synergies fcf ebitda top : Q) :
  (forall v, v <= top ->
             calculate_irr (cash_flows_for v synergies fcf ebitda) = None) ->
  forall n low high,
    low <= high -> high <= top ->
    (search_transaction_value target synergies fcf ebitda n low high - low)
    * pow2 (S n) == high - low.
Proof.
  intros Hnone. induction n as [|n IH]; intros low high Hle Htop.
  - simpl. field.
  - pose proof (midpoint_between low high Hle) as Hmid.
    assert (E : (low + high) / 2 == low * (1#2) + high * (1#2)) by field.
    rewrite search_step_None by (apply Hnone; lra).
    set (mid := (low + high) / 2) in *.
    assert (Hm : mid <= top) by lra.
    pose proof (IH low mid (proj1 Hmid) Hm) as Hw.
    change (pow2 (S (S n))) with (2 * pow2 (S n)). nra.
Qed.

(** An undefined IRR at the first price probed (the midpoint $25.5B) is
    taken as "price too high": the search then only moves down, where the
    IRR stays undefined, and returns $1B + $49B / 2^101, just above its
    lower bound. *)
Theorem find_transaction_value_undefined_irr (target synergies fcf ebitda : Q) :
  calculate_irr
    (cash_flows_for ((low_value + high_value) / 2) synergies fcf ebitda) = None ->
  find_transaction_value_for_irr target synergies fcf ebitda
  == 1000000000 + 49000000000 / 2 ^ 101
  /\ 1000000000
     <= find_transaction_value_for_irr target synergies fcf ebitda
     <= 1000000001.
Proof.
  intros Hnone. unfold find_transaction_value_for_irr.
  change 100%nat with (S 99). rewrite (search_step_None _ _ _ _ 99 _ _ Hnone).
  assert (Hall : forall v, v <= (low_value + high_value) / 2 ->
             calculate_irr (cash_flows_for v synergies fcf ebitda) = None).
  { intros v Hv. apply calculate_irr_None_value.
    apply calculate_irr_None_value in Hnone.
    eapply Qlt_le_trans; [exact Hnone|].
    apply npv_value_mono; [unfold high0; lra|].
    apply cash_flows_for_dominated. exact Hv. }
  pose proof (midpoint_between _ _ value_bracket_ordered) as Hmid.
  pose proof (search_below_undefined target synergies fcf ebitda _ Hall 99
                low_value ((low_value + high_value) / 2) (proj1 Hmid)
                (Qle_refl _)) as Hw.
  set (v := search_transaction_value _ _ _ _ _ _ _) in *. clearbody v.
  assert (E : pow2 100 == 2 ^ 100) by (vm_compute; reflexivity).
  assert (E' : (2:Q) ^ 101 == 2 * 2 ^ 100) by (vm_compute; reflexivity).
  assert (Emid : (low_value + high_value) / 2 - low_value == 24500000000)
    by (vm_compute; reflexivity).
  rewrite Emid, E in Hw. rewrite E'.
  assert (Hpos : 0 < 2 ^ 100) by (vm_compute; reflexivity).
  pose proof low_value_eq as El.
  set (P := 2 ^ 100) in *.
  assert (Ex : 49000000000 / (2 * P) * P == 24500000000) by (field; lra).
  set (x := 49000000000 / (2 * P)) in *.
  assert (Hbig : 24500000000 < P) by (vm_compute; reflexivity).
  assert (Hv : v == 1000000000 + x) by nra.
  split; [exact Hv|]. rewrite Hv. split; nra.
Qed.

Lemma find_transaction_value_undefined_irr_witness :
  calculate_irr
    (cash_flows_for ((low_value + high_value) / 2) 1000000000000 23000000 50000000)
  = None
  /\ find_transaction_value_for_irr 0.10 1000000000000 23000000 50000000
     == 1000000000 + 49000000000 / 2 ^ 101
  /\ 1000000000
     <= find_transaction_value_for_irr 0.10 1000000000000 23000000 50000000
     <= 1000000001.
Proof.
  assert (H : calculate_irr
                (cash_flows_for ((low_value + high_value) / 2)
                                1000000000000 23000000 50000000) = None)
    by (vm_compute; reflexivity).
  split; [exact H|].
  exact (find_transaction_value_undefined_irr 0.10 1000000000000 23000000 50000000 H).
Defined.

End PriceSearchUndefined.

Section BreakEvenFacts.
Import Py IrrSolver IrrSolverFacts IrrSensitivity BreakEven SweepFacts.

Lemma scenario_cash_flows_dominated_le (tv fcf ebitda s1 s2 : Q) :
  s1 <= s2 ->
  Forall2 Qle (scenario_cash_flows tv fcf ebitda s1)
              (scenario_cash_flows tv fcf ebitda s2).
Proof.
  intros Hs. rewrite !scenario_cash_flows_entries. cbv zeta.
  assert (Hyear : forall year,
             cf_year fcf (s1 * (1 - TAX_RATE)) year
             <= cf_year fcf (s2 * (1 - TAX_RATE)) year).
  { intros year. unfold cf_year, TAX_RATE.
    assert (Hg : 0 < pow 1.05 (year - 1)) by (apply pow_pos; lra).
    nra. }
  assert (Hterm :
            (ebitda + s1 * pow 1.05 (HOLDING_PERIOD - 1)) * TERMINAL_MULTIPLE
            <= (ebitda + s2 * pow 1.05 (HOLDING_PERIOD - 1)) * TERMINAL_MULTIPLE).
  { unfold TERMINAL_MULTIPLE.
    assert (Hg : 0 < pow 1.05 (HOLDING_PERIOD - 1)) by (apply pow_pos; lra).
    nra. }
  repeat (constructor;
          [first [ apply Qle_refl | apply Hyear
                 | pose proof (Hyear 7%nat); lra ]|]).
  constructor.
Qed.

Local Abbreviation irr_at tv fcf ebitda m :=
  (calculate_irr (scenario_cash_flows tv fcf ebitda (base_synergies * m)))
  (only parsing).

Lemma break_even_search_cons (tv fcf ebitda m : Q) (rest : list Q) :
  break_even_search tv fcf ebitda (m :: rest)
  = match irr_at tv fcf ebitda m with
    | Some v =>
        if truthy (Some v) then
          if Qlt_le_dec (v / 100) target_irr
          then break_even_search tv fcf ebitda rest
          else Some (m, base_synergies * m)
        else break_even_search tv fcf ebitda rest
    | None => break_even_search tv fcf ebitda rest
    end.
Proof. cbn [break_even_search]. reflexivity. Qed.

Lemma break_even_search_first (tv fcf ebitda : Q) (multipliers : list Q) :
  match break_even_search tv fcf ebitda multipliers with
  | Some (m, s) =>
      s = base_synergies * m
      /\ (exists v, irr_at tv fcf ebitda m = Some v /\ target_irr <= v / 100)
      /\ exists before after,
           multipliers = before ++ m :: after
           /\ forall m' v', In m' before ->
                            irr_at tv fcf ebitda m' = Some v' ->
                            v' / 100 < target_irr
  | None =>
      forall m' v', In m' multipliers ->
                    irr_at tv fcf ebitda m' = Some v' -> v' / 100 < target_irr
  end.
Proof.
  assert (Hzero : forall v, Qeq_bool v 0 = true -> v / 100 < target_irr).
  { intros v Hv. apply Qeq_bool_eq in Hv. rewrite Hv. reflexivity. }
  induction multipliers as [|m rest IH]; [intros m' v' []|].
  rewrite break_even_search_cons.
  assert (Hskip :
            (forall v, irr_at tv fcf ebitda m = Some v -> v / 100 < target_irr) ->
            match break_even_search tv fcf ebitda rest with
            | Some (m0, s) =>
                s = base_synergies * m0
                /\ (exists v, irr_at tv fcf ebitda m0 = Some v
                              /\ target_irr <= v / 100)
                /\ exists before after,
                     m :: rest = before ++ m0 :: after
                     /\ forall m' v', In m' before ->
                                      irr_at tv fcf ebitda m' = Some v' ->
                                      v' / 100 < target_irr
            | None =>
                forall m' v', In m' (m :: rest) ->
                              irr_at tv fcf ebitda m' = Some v' ->
                              v' / 100 < target_irr
            end).
  { intros Hm.
    destruct (break_even_search tv fcf ebitda rest) as [[m0 s]|].
    - destruct IH as (Hs & Hv & before & after & Hsplit & Hbefore).
      split; [exact Hs|]. split; [exact Hv|].
      exists (m :: before), after. split; [rewrite Hsplit; reflexivity|].
      intros m' v' [<-|Hin] Hirr; [apply Hm; exact Hirr|].
      eapply Hbefore; eassumption.
    - intros m' v' [<-|Hin] Hirr; [apply Hm; exact Hirr|].
      eapply IH; eassumption. }
  destruct (irr_at tv fcf ebitda m) as [v|] eqn:Hirr.
  - unfold truthy. destruct (Qeq_bool v 0) eqn:Hz; cbn [negb].
    + apply Hskip. intros v0 [= <-]. apply Hzero. exact Hz.
    + destruct (Qlt_le_dec (v / 100) target_irr) as [Hlt|Hge].
      * apply Hskip. intros v0 [= <-]. exact Hlt.
      * split; [reflexivity|]. split; [exists v; split; [exact Hirr|exact Hge]|].
         exists [], rest. split; [reflexivity|]. intros m' v' [].
  - apply Hskip. intros v0 [=].
Qed.

(** The first match is upward closed: multipliers at least as large as the
    one found reach the target whenever their IRR is defined. *)
Lemma break_even_search_spec (tv fcf ebitda : Q) (multipliers : list Q) :
  match break_even_search tv fcf ebitda multipliers with
  | Some (m, s) =>
      s = base_synergies * m
      /\ (exists v,
             calculate_irr (scenario_cash_flows tv fcf ebitda s) = Some v
             /\ target_irr <= v / 100)
      /\ (exists before after,
             multipliers = before ++ m :: after
             /\ forall m' v',
                 In m' before ->
                 calculate_irr
                   (scenario_cash_flows tv fcf ebitda (base_synergies * m'))
                 = Some v' ->
                 v' / 100 < target_irr)
      /\ forall m' v',
          m <= m' ->
          calculate_irr (scenario_cash_flows tv fcf ebitda (base_synergies * m'))
          = Some v' ->
          target_irr <= v' / 100
  | None =>
      forall m' v',
        In m' multipliers ->
        calculate_irr (scenario_cash_flows tv fcf ebitda (base_synergies * m'))
        = Some v' ->
        v' / 100 < target_irr
  end.
Proof.
  pose proof (break_even_search_first tv fcf ebitda multipliers) as H.
  destruct (break_even_search tv fcf ebitda multipliers) as [[m s]|]; [|exact H].
  destruct H as (Hs & (v & Hv & Hge) & Hfirst).
  split; [exact Hs|]. split; [exists v; rewrite Hs; split; assumption|].
  split; [exact Hfirst|].
  intros m' v' Hm Hirr.
  assert (Hle : v <= v').
  { eapply calculate_irr_monotone; [|exact Hv|exact Hirr].
    apply scenario_cash_flows_dominated_le. unfold base_synergies. nra. }
  assert (E : forall x, x / 100 == x * 0.01) by (intros x; field).
  unfold target_irr in *. rewrite (E v) in Hge. rewrite (E v'). lra.
Qed.

(** The break-even line names the first multiplier of the list whose IRR
    reaches 10%: no earlier one does, and every multiplier at least as
    large (listed or not) with a defined IRR reaches it too.  When no line
    is printed, no listed multiplier reaches 10%. *)
Theorem break_even_is_first_and_upward_closed (tv fcf ebitda : Q) :
  match break_even tv fcf ebitda with
  | Some (m, s) =>
      s = base_synergies * m
      /\ (exists v,
             calculate_irr (scenario_cash_flows tv fcf ebitda s) = Some v
             /\ target_irr <= v / 100)
      /\ (exists before after,
             test_multipliers = before ++ m :: after
             /\ forall m' v',
                 In m' before ->
                 calculate_irr
                   (scenario_cash_flows tv fcf ebitda (base_synergies * m'))
                 = Some v' ->
                 v' / 100 < target_irr)
      /\ forall m' v',
          m <= m' ->
          calculate_irr (scenario_cash_flows tv fcf ebitda (base_synergies * m'))
          = Some v' ->
          target_irr <= v' / 100
  | None =>
      forall m' v',
        In m' test_multipliers ->
        calculate_irr (scenario_cash_flows tv fcf ebitda (base_synergies * m'))
        = Some v' ->
        v' / 100 < target_irr
  end.
Proof. exact (break_even_search_spec tv fcf ebitda test_multipliers). Qed.

End BreakEvenFacts.

(** ** The scenario sweep *)

Section SweepClaims.
Import Py IrrSolver IrrSolverFacts IrrSensitivity SweepFacts.

Lemma npv_at_10pct_defined (cash_flows : list Q) :
  forall i acc,
    npv_at_10pct_from i cash_flows acc
    = Ok (npv_at_10pct_value_from i cash_flows acc).
Proof.
  induction cash_flows as [|cf rest IH]; intros i acc; simpl.
  - reflexivity.
  - rewrite div_nonzero.
    + simpl. apply IH.
    + assert (0 < pow 1.10 i) by (apply pow_pos; lra). lra.
Qed.

Lemma run_scenario_defined (tv fcf ebitda : Q) (entry : string * Q) :
  run_scenario tv fcf ebitda entry = Ok (scenario_of tv fcf ebitda entry).
Proof.
  destruct entry as [name multiplier]. unfold run_scenario.
  rewrite npv_at_10pct_defined. reflexivity.
Qed.

Lemma run_scenarios_defined (tv fcf ebitda : Q) (entries : list (string * Q)) :
  run_scenarios tv fcf ebitda entries = Ok (map (scenario_of tv fcf ebitda) entries).
Proof.
  induction entries as [|entry rest IH]; simpl; [reflexivity|].
  rewrite run_scenario_defined, IH. reflexivity.
Qed.

(** What the sweep returns: with the facts present, the scenarios of
    [synergy_scenarios] at the deal's price and EBITDA; else a [KeyError]. *)
Lemma calculate_irr_sensitivity_cases
      (financials market_data : gmap string (gmap string Q)) :
  match calculate_irr_sensitivity financials market_data with
  | Ok results =>
      sweep_inputs_present financials market_data = true
      /\ exists tv ebitda,
          results = map (scenario_of tv 23000000 ebitda) synergy_scenarios
  | Raise e =>
      sweep_inputs_present financials market_data = false
      /\ exists key, e = KeyError key
  end.
Proof.
  unfold calculate_irr_sensitivity, sweep_inputs_present, getitem,
    HasGets.has_keys.
  cbn [forallb].
  destruct (financials !! "LSCC") as [lscc|]; cbn [bind];
    [|split; [reflexivity|eexists; reflexivity]].
  destruct (market_data !! "LSCC") as [lscc_market|]; cbn [bind];
    [|split; [reflexivity|eexists; reflexivity]].
  destruct (lscc_market !! "current_price") as [price|]; cbn [bind];
    [|split; [reflexivity|eexists; reflexivity]].
  destruct (lscc !! "shares_outstanding") as [shares|]; cbn [bind];
    [|split; [reflexivity|eexists; reflexivity]].
  destruct (lscc !! "revenue") as [revenue|]; cbn [bind];
    [|split; [reflexivity|eexists; reflexivity]].
  destruct (lscc !! "operating_income") as [operating_income|]; cbn [bind];
    [|split; [reflexivity|eexists; reflexivity]].
  rewrite run_scenarios_defined. split; [reflexivity|].
  eexists. eexists. reflexivity.
Qed.








(** On the sample pair the sweep returns its six results. *)
Example calculate_irr_sensitivity_on_samples :
  exists results,
    calculate_irr_sensitivity (Samples.financials 50) Samples.market_data
    = Ok results
    /\ length results = 6%nat.
Proof.
  pose proof (calculate_irr_sensitivity_cases (Samples.financials 50)
                                              Samples.market_data) as H.
  set (res := calculate_irr_sensitivity _ _) in *. clearbody res.
  destruct res as [results|e].
  - destruct H as (_ & tv & ebitda & ->). eexists. split; reflexivity.
  - destruct H as [H _]. vm_compute in H. discriminate H.
Qed.

End SweepClaims.

(** ** Consolidation: errors and balance-sheet identities *)

Section ConsolidationExtras.
Import Py HasGets HasGetsFacts ConsolidationFacts.





Ltac getitem_step :=
  match goal with
  | H : ?d !! ?k = Some ?v |- context [getitem ?d ?k] =>
      rewrite (getitem_Some d k v H); cbn [bind]
  end.

Ltac key_present :=
  match goal with
  | H : bool_decide (is_Some _) = true |- _ =>
      apply bool_decide_eq_true in H; destruct H as [? H]
  end.






(** On the sample pair both ratios are reported. *)
Example leverage_and_coverage_reported :
  exists r leverage coverage,
    calculate_has_gets_metrics (Samples.financials 50) Samples.market_data = Ok r
    /\ debt_ebitda (buyer r) = Some leverage
    /\ ebitda_interest (buyer r) = Some coverage.
Proof.
  do 3 eexists. split; [vm_compute; reflexivity|]. split; reflexivity.
Qed.

End ConsolidationExtras.

(** ** Cash-flow estimates and per-company metrics *)

Section CashFlowExtras.
Import Py CashFlowMetrics CashFlowMain.

(** For a profitable company with non-negative revenue the 2% floor never
    binds: the estimate is 90% of net income plus D&A (3% of revenue). *)
Theorem profitable_estimate (net_income revenue operating_income : Q) :
  0 < net_income ->
  0 <= revenue ->
  estimate_operating_cash_flow net_income revenue operating_income None
  = (net_income + revenue * 0.03) * 0.90.
Proof.
  intros Hni Hrev. unfold estimate_operating_cash_flow.
  destruct (Qlt_le_dec 0 net_income) as [_|Hle]; [|lra].
  unfold Py.max.
  destruct (Qlt_le_dec ((net_income + revenue * 0.03) * 0.90) (revenue * 0.02));
    [lra | reflexivity].
Qed.

Lemma profitable_estimate_witness :
  0 < 200
  /\ 0 <= 1000
  /\ estimate_operating_cash_flow 200 1000 250 None = (200 + 1000 * 0.03) * 0.90.
Proof.
  assert (H1 : 0 < 200) by lra. assert (H2 : 0 <= 1000) by lra.
  split; [exact H1|]. split; [exact H2|].
  exact (profitable_estimate 200 1000 250 H1 H2).
Defined.

(** For a loss-maker whose operating loss is at least 10% of a
    non-negative revenue, the estimate is exactly the floor, 2% of revenue,
    whatever the size of the loss. *)
Theorem deep_loss_estimate (net_income revenue operating_income : Q) :
  net_income <= 0 ->
  0 <= revenue ->
  operating_income <= - revenue * 0.10 ->
  estimate_operating_cash_flow net_income revenue operating_income None
  == revenue * 0.02.
Proof.
  intros Hni Hrev Hoi. unfold estimate_operating_cash_flow.
  destruct (Qlt_le_dec 0 net_income) as [Hp|_]; [lra|].
  unfold Py.max.
  destruct (Qlt_le_dec (- revenue * 0.10) operating_income) as [Hgt|_];
    destruct (Qlt_le_dec (operating_income + revenue * 0.03) (revenue * 0.02));
    try destruct (Qlt_le_dec (revenue * 0.02) (revenue * 0.02));
    try destruct (Qlt_le_dec (operating_income + revenue * 0.03) (revenue * 0.02));
    lra.
Qed.

Lemma deep_loss_estimate_witness :
  -300 <= 0
  /\ 0 <= 1000
  /\ -400 <= - 1000 * 0.10
  /\ estimate_operating_cash_flow (-300) 1000 (-400) None == 1000 * 0.02.
Proof.
  assert (H1 : -300 <= 0) by lra. assert (H2 : 0 <= 1000) by lra.
  assert (H3 : -400 <= - 1000 * 0.10) by lra.
  split; [exact H1|]. split; [exact H2|]. split; [exact H3|].
  exact (deep_loss_estimate (-300) 1000 (-400) H1 H2 H3).
Defined.

(** The two estimates composed: estimated free cash flow is never below
    -7% of revenue (the 2% OCF floor less 9% CapEx). *)
Theorem estimated_free_cash_flow_floor (net_income revenue operating_income : Q) :
  - 0.07 * revenue
  <= calculate_free_cash_flow
       (estimate_operating_cash_flow net_income revenue operating_income None)
       revenue None.
Proof.
  unfold calculate_free_cash_flow.
  pose proof (max_ge_r
                (if Qlt_le_dec 0 net_income
                 then (net_income + revenue * 0.03) * 0.90
                 else if Qlt_le_dec (- revenue * 0.10) operating_income
                      then operating_income + revenue * 0.03
                      else Py.max (operating_income + revenue * 0.03)
                                  (revenue * 0.02))
                (revenue * 0.02)) as Hfloor.
  unfold estimate_operating_cash_flow. lra.
Qed.

Ltac getitem_step :=
  match goal with
  | H : ?d !! ?k = Some ?v |- context [getitem ?d ?k] =>
      rewrite (getitem_Some d k v H); cbn [bind]
  end.



End CashFlowExtras.

Section CompanyMetricsExtras.
Import Py CashFlowMetrics CashFlowMain.

Ltac getitem_step :=
  match goal with
  | H : ?d !! ?k = Some ?v |- context [getitem ?d ?k] =>
      rewrite (getitem_Some d k v H); cbn [bind]
  end.



Lemma company_metrics_outcome (name : string) (data : company_data) (market_cap : Q) :
  match company_metrics name data market_cap with
  | Ok m => ticker m = name
  | Raise e => exists key, e = KeyError key
  end.
Proof.
  unfold company_metrics, get_company_info, getitem.
  destruct (facts data !! "revenue"); cbn [bind]; [|eexists; reflexivity].
  destruct (facts data !! "net_income"); cbn [bind]; [|eexists; reflexivity].
  destruct (facts data !! "operating_income"); cbn [bind]; [|eexists; reflexivity].
  destruct (facts data !! "operating_cash_flow");
    destruct (facts data !! "free_cash_flow");
    (destruct (company_info data) as [info|]; cbn [bind]; [|eexists; reflexivity]);
    (destruct (info !! "name"); cbn [bind]; [reflexivity|eexists; reflexivity]).
Qed.

(** The loop over the tickers either returns one record per ticker, in
    order and under that ticker, or stops at the first missing entry or
    fact with a [KeyError]; nothing else is raised (every division is
    guarded). *)
Theorem collect_metrics_outcome
        (financials : gmap string company_data) (market_caps : gmap string Q)
        (tickers : list string) :
  match collect_metrics financials market_caps tickers with
  | Ok results => map ticker results = tickers
  | Raise e => exists key, e = KeyError key
  end.
Proof.
  induction tickers as [|name rest IH]; cbn [collect_metrics]; [reflexivity|].
  unfold getitem.
  destruct (financials !! name) as [data|]; cbn [bind]; [|eexists; reflexivity].
  destruct (market_caps !! name) as [market_cap|]; cbn [bind];
    [|eexists; reflexivity].
  pose proof (company_metrics_outcome name data market_cap) as Hm.
  destruct (company_metrics name data market_cap) as [m|e]; cbn [bind];
    [|exact Hm].
  destruct (collect_metrics financials market_caps rest) as [results|e];
    cbn [bind]; [|exact IH].
  simpl. rewrite Hm, IH. reflexivity.
Qed.

End CompanyMetricsExtras.

(** ** Expected IRR over the sweep's scenarios *)

Section ExpectedIrrBounds.
Import Py IrrSensitivity.




End ExpectedIrrBounds.
